(** * Dropdown controller (src/components/dropdown/index.ts)

    A shallow embedding of the [Dropdown] class and of [initDropdowns],
    together with the parts of the browser they talk to: the class list of
    the target element, the capture-phase click listeners of
    [document.body], the Popper instance and the console.

    Conventions of the model.
    - A DOM node is a handle ([node], a natural number); the document is a
      tree of elements carrying their attributes.
    - Every evaluation of an arrow function yields a new function object.
      Function objects are [ref]s allocated from a counter of the state.
    - The user callbacks [onShow] and [onHide] are observers: their
      invocation is recorded in the effect log and they do not call back
      into the controller (the ones of [Default] are empty functions).
    - The fields [_targetEl] and [_triggerEl] are declared [HTMLElement];
      the constructor lets both be [null].  [_init] tests the trigger, so
      the trigger is an [option]; the target is taken to be an element.
    - The positioning engine is modelled as it works for a controller that
      has a trigger element.  Popper needs that reference element to take
      an options update: with a [null] trigger [setOptions] throws, and
      [show()] and [hide()] end there.  What is proved of the calls past
      that point (listener, visibility, callback, modifiers) is stated for
      controllers with a trigger. *)

From Stdlib Require Import List String Ascii Bool Arith ZArith Lia.
From Stdlib Require Import DecimalString DecimalNat.
Import ListNotations.
Local Open Scope string_scope.
Local Open Scope list_scope.

(** ** The document *)

Abbreviation node := nat (only parsing).
Abbreviation ref := nat (only parsing).

#[warnings="-register-all"]
Inductive dom : Type :=
| Elem (h : node) (attrs : list (string * string)) (children : list dom).

Definition handle (d : dom) : node := let 'Elem h _ _ := d in h.
Definition attributes (d : dom) : list (string * string) :=
  let 'Elem _ a _ := d in a.

(** Inclusive descendants in tree order. *)
Fixpoint elements (d : dom) : list dom :=
  match d with
  | Elem h a cs => d :: flat_map elements cs
  end.

(** [Element.getAttribute]: [null] when the attribute is absent. *)
Fixpoint getAttr (name : string) (a : list (string * string)) : option string :=
  match a with
  | [] => None
  | (k, v) :: rest => if String.eqb k name then Some v else getAttr name rest
  end.

Definition getAttribute (e : dom) (name : string) : option string :=
  getAttr name (attributes e).

(** [document.querySelectorAll('[name]')]: the elements that have the
    attribute, in tree order. *)
Definition querySelectorAll_attr (doc : dom) (name : string) : list dom :=
  filter (fun e => match getAttribute e name with Some _ => true | None => false end)
         (elements doc).

(** [document.getElementById]: the first element in tree order whose id is
    the given string; the empty string matches no element. *)
Definition getElementById (doc : dom) (id : string) : option dom :=
  if String.eqb id "" then None
  else find (fun e => match getAttribute e "id" with
                      | Some v => String.eqb v id
                      | None => false
                      end) (elements doc).

(** [a.contains(b)]: [b] is [a] or one of its descendants. *)
Definition contains (doc : dom) (a b : node) : bool :=
  Nat.eqb a b ||
  match find (fun e => Nat.eqb (handle e) a) (elements doc) with
  | Some t => existsb (fun e => Nat.eqb (handle e) b) (elements t)
  | None => false
  end.

(** ** DOMTokenList and event-listener lists *)

(** [classList.remove(c)] *)
Definition token_remove (c : string) (l : list string) : list string :=
  filter (fun x => negb (String.eqb x c)) l.

(** [classList.add(c)]: appended unless already present. *)
Definition token_add (c : string) (l : list string) : list string :=
  if existsb (String.eqb c) l then l else l ++ [c].

Definition has_class (c : string) (l : list string) : bool :=
  existsb (String.eqb c) l.

(** [addEventListener] on one (type, capture) slot: a callback that is
    already registered is not registered again. *)
Definition listener_add (r : ref) (l : list ref) : list ref :=
  if existsb (Nat.eqb r) l then l else l ++ [r].

(** [removeEventListener]: [undefined] as callback removes nothing. *)
Definition listener_remove (r : option ref) (l : list ref) : list ref :=
  match r with
  | Some r => filter (fun x => negb (Nat.eqb x r)) l
  | None => l
  end.

(** ** Numbers and options *)

(** The numbers that reach the offset options: integers and NaN. *)
Inductive jsnum : Type :=
| NaN
| Int (z : Z).

Record DropdownOptions : Type := {
  placement : string;
  triggerType : string;
  offsetSkidding : jsnum;
  offsetDistance : jsnum
}.

Definition Default : DropdownOptions :=
  {| placement := "bottom";
     triggerType := "click";
     offsetSkidding := Int 0;
     offsetDistance := Int 10 |}.

(** An options argument: a property may be left out. *)
Record PartialOptions : Type := {
  p_placement : option string;
  p_triggerType : option string;
  p_offsetSkidding : option jsnum;
  p_offsetDistance : option jsnum
}.

Definition or_default {A} (o : option A) (d : A) : A :=
  match o with Some x => x | None => d end.

(** [{ ...Default, ...options }] *)
Definition merge_options (o : PartialOptions) : DropdownOptions :=
  {| placement := or_default (p_placement o) (placement Default);
     triggerType := or_default (p_triggerType o) (triggerType Default);
     offsetSkidding := or_default (p_offsetSkidding o) (offsetSkidding Default);
     offsetDistance := or_default (p_offsetDistance o) (offsetDistance Default) |}.

(** ** Effects *)

Inductive modifier : Type :=
| OffsetModifier (skidding distance : jsnum)
| EventListenersModifier (enabled : bool).

(** What the controller does to the outside world, in program order. *)
Inductive effect : Type :=
| ClassRemove (c : string)
| ClassAdd (c : string)
| PopperSetOptions (modifiers : list modifier)
| PopperUpdate
| BodyAddListener (r : ref)
| BodyRemoveListener (r : option ref)
| CallOnShow
| CallOnHide.

(** ** The controller and the part of the page it acts on *)

Record State : Type := {
  document : dom;
  _targetEl : node;
  _triggerEl : option node;
  _options : DropdownOptions;
  _visible : bool;
  _clickOutsideEventListener : option ref;
  popperModifiers : list modifier;
  targetClasses : list string;
  bodyClickCapture : list ref;
  nextRef : ref;
  log : list effect
}.

Definition with_classes (f : list string -> list string) (s : State) : State :=
  {| document := document s; _targetEl := _targetEl s; _triggerEl := _triggerEl s;
     _options := _options s; _visible := _visible s;
     _clickOutsideEventListener := _clickOutsideEventListener s;
     popperModifiers := popperModifiers s;
     targetClasses := f (targetClasses s);
     bodyClickCapture := bodyClickCapture s;
     nextRef := nextRef s; log := log s |}.

Definition with_log (e : effect) (s : State) : State :=
  {| document := document s; _targetEl := _targetEl s; _triggerEl := _triggerEl s;
     _options := _options s; _visible := _visible s;
     _clickOutsideEventListener := _clickOutsideEventListener s;
     popperModifiers := popperModifiers s;
     targetClasses := targetClasses s;
     bodyClickCapture := bodyClickCapture s;
     nextRef := nextRef s; log := log s ++ [e] |}.

Definition classList_remove (c : string) (s : State) : State :=
  with_log (ClassRemove c) (with_classes (token_remove c) s).

Definition classList_add (c : string) (s : State) : State :=
  with_log (ClassAdd c) (with_classes (token_add c) s).

(** [_popperInstance.setOptions(updater)], on an engine that was created
    with a reference element. *)
Definition popper_setOptions (f : list modifier -> list modifier) (s : State) : State :=
  let ms := f (popperModifiers s) in
  with_log (PopperSetOptions ms)
  {| document := document s; _targetEl := _targetEl s; _triggerEl := _triggerEl s;
     _options := _options s; _visible := _visible s;
     _clickOutsideEventListener := _clickOutsideEventListener s;
     popperModifiers := ms;
     targetClasses := targetClasses s;
     bodyClickCapture := bodyClickCapture s;
     nextRef := nextRef s; log := log s |}.

Definition popper_update (s : State) : State := with_log PopperUpdate s.

Definition set_visible (b : bool) (s : State) : State :=
  {| document := document s; _targetEl := _targetEl s; _triggerEl := _triggerEl s;
     _options := _options s; _visible := b;
     _clickOutsideEventListener := _clickOutsideEventListener s;
     popperModifiers := popperModifiers s;
     targetClasses := targetClasses s;
     bodyClickCapture := bodyClickCapture s;
     nextRef := nextRef s; log := log s |}.

(** Popper merges modifiers by name, a later entry overriding an earlier
    one; its [eventListeners] modifier is enabled unless told otherwise. *)
Fixpoint eventListenersEnabled_from (ms : list modifier) (acc : bool) : bool :=
  match ms with
  | [] => acc
  | EventListenersModifier b :: rest => eventListenersEnabled_from rest b
  | OffsetModifier _ _ :: rest => eventListenersEnabled_from rest acc
  end.

Definition eventListenersEnabled (s : State) : bool :=
  eventListenersEnabled_from (popperModifiers s) true.

(** [_setupClickOutsideListener]: a new arrow function is stored in the
    field and registered on [document.body] (click, capture). *)
Definition _setupClickOutsideListener (s : State) : State :=
  let r := nextRef s in
  with_log (BodyAddListener r)
  {| document := document s; _targetEl := _targetEl s; _triggerEl := _triggerEl s;
     _options := _options s; _visible := _visible s;
     _clickOutsideEventListener := Some r;
     popperModifiers := popperModifiers s;
     targetClasses := targetClasses s;
     bodyClickCapture := listener_add r (bodyClickCapture s);
     nextRef := S r; log := log s |}.

(** [_removeClickOutsideListener]: whatever the field holds is passed to
    [removeEventListener]. *)
Definition _removeClickOutsideListener (s : State) : State :=
  let r := _clickOutsideEventListener s in
  with_log (BodyRemoveListener r)
  {| document := document s; _targetEl := _targetEl s; _triggerEl := _triggerEl s;
     _options := _options s; _visible := _visible s;
     _clickOutsideEventListener := r;
     popperModifiers := popperModifiers s;
     targetClasses := targetClasses s;
     bodyClickCapture := listener_remove r (bodyClickCapture s);
     nextRef := nextRef s; log := log s |}.

Definition show (s : State) : State :=
  let s := classList_remove "hidden" s in
  let s := classList_add "block" s in
  let s := popper_setOptions (fun ms => ms ++ [EventListenersModifier true]) s in
  let s := _setupClickOutsideListener s in
  let s := popper_update s in
  let s := set_visible true s in
  with_log CallOnShow s.

Definition hide (s : State) : State :=
  let s := classList_remove "block" s in
  let s := classList_add "hidden" s in
  let s := popper_setOptions (fun ms => ms ++ [EventListenersModifier false]) s in
  let s := set_visible false s in
  let s := _removeClickOutsideListener s in
  with_log CallOnHide s.

Definition toggle (s : State) : State :=
  if _visible s then hide s else show s.

Arguments show : simpl never.
Arguments hide : simpl never.
Arguments toggle : simpl never.

(** ** Outside-click dismissal *)

(** A call either returns or throws the TypeError of a property access on
    [null]. *)
Inductive outcome : Type :=
| Returned (s : State)
| TypeError.

(** The test of [_handleClickOutside], left to right as [&&] evaluates it.
    [_triggerEl.contains] is reached only when the click is not in the
    target. *)
Definition _handleClickOutside (clickedEl : node) (s : State) : outcome :=
  let targetEl := _targetEl s in
  if negb (Nat.eqb clickedEl targetEl)
     && negb (contains (document s) targetEl clickedEl)
  then
    match _triggerEl s with
    | None => TypeError
    | Some triggerEl =>
        if negb (contains (document s) triggerEl clickedEl) && _visible s
        then Returned (hide s)
        else Returned s
    end
  else Returned s.



(** ** Trigger wiring *)

Record TriggerEvents : Type := {
  showEvents : list string;
  hideEvents : list string
}.

Definition _getTriggerEvents (o : DropdownOptions) : TriggerEvents :=
  if String.eqb (triggerType o) "hover" then
    {| showEvents := ["mouseenter"; "click"]; hideEvents := ["mouseleave"] |}
  else if String.eqb (triggerType o) "click" then
    {| showEvents := ["click"]; hideEvents := [] |}
  else
    {| showEvents := ["click"]; hideEvents := [] |}.

Inductive wired_element : Type := OnTrigger | OnTarget.

(** What a listener attached by [_init] does when its event fires. *)
Inductive handler : Type :=
| CallToggle
| CallShow
| HideLaterUnlessHovered (delay_ms : nat) (other : wired_element).

Record registration : Type := {
  reg_on : wired_element;
  reg_event : string;
  reg_handler : handler
}.

(** The hover-mode listener of the trigger: [ev] is the event name the
    closure captured. *)
Definition hover_show_handler (ev : string) : handler :=
  if String.eqb ev "click" then CallToggle else CallShow.

Inductive console_entry : Type :=
| ConsoleLog (what : TriggerEvents)
| ConsoleError (message : string).

(** [_init]: the listeners it attaches, in order, and what it prints. *)
Definition _init (triggerEl : option node) (o : DropdownOptions)
  : list registration * list console_entry :=
  match triggerEl with
  | None => ([], [])
  | Some _ =>
      let triggerEvents := _getTriggerEvents o in
      let on_click :=
        if String.eqb (triggerType o) "click" then
          map (fun ev => {| reg_on := OnTrigger; reg_event := ev;
                            reg_handler := CallToggle |})
              (showEvents triggerEvents)
        else [] in
      let on_hover :=
        if String.eqb (triggerType o) "hover" then
          flat_map (fun ev =>
                      [ {| reg_on := OnTrigger; reg_event := ev;
                           reg_handler := hover_show_handler ev |};
                        {| reg_on := OnTarget; reg_event := ev;
                           reg_handler := CallShow |} ])
                   (showEvents triggerEvents)
          ++
          flat_map (fun ev =>
                      [ {| reg_on := OnTrigger; reg_event := ev;
                           reg_handler := HideLaterUnlessHovered 100 OnTarget |};
                        {| reg_on := OnTarget; reg_event := ev;
                           reg_handler := HideLaterUnlessHovered 100 OnTrigger |} ])
                   (hideEvents triggerEvents)
        else [] in
      (on_click ++ on_hover,
       if String.eqb (triggerType o) "hover" then [ConsoleLog triggerEvents] else [])
  end.

(** ** Construction *)

Record Constructed : Type := {
  controller : State;
  wiring : list registration;
  printed : list console_entry
}.

(** [new Dropdown(targetElement, triggerElement, options)] on a page where
    the target element has the class list [classes]. *)
Definition Dropdown_new (doc : dom) (targetElement : node)
           (triggerElement : option node) (options : PartialOptions)
           (classes : list string) : Constructed :=
  let o := merge_options options in
  let attached := _init triggerElement o in
  {| controller :=
       {| document := doc;
          _targetEl := targetElement;
          _triggerEl := triggerElement;
          _options := o;
          _visible := false;
          _clickOutsideEventListener := None;
          popperModifiers := [OffsetModifier (offsetSkidding o) (offsetDistance o)];
          targetClasses := classes;
          bodyClickCapture := [];
          nextRef := 0;
          log := [] |};
     wiring := fst attached;
     printed := snd attached |}.

(** ** Sequences of calls of the public API *)

Inductive call : Type := Show | Hide | Toggle.

Definition step (s : State) (c : call) : State :=
  match c with
  | Show => show s
  | Hide => hide s
  | Toggle => toggle s
  end.

Definition run (cs : list call) (s : State) : State := fold_left step cs s.

(** A small page: a menu and the button that opens it. *)
Definition page0 : dom :=
  Elem 0 [] [Elem 1 [("id", "menu"); ("class", "hidden")] [];
             Elem 2 [("data-dropdown-toggle", "menu")] []].

(** A controller as the constructor leaves it, on a target that carries
    "hidden" and not "block". *)
Definition initial (doc : dom) (target : node) (trigger : option node)
           (options : PartialOptions) (classes : list string) : State :=
  controller (Dropdown_new doc target trigger options classes).

Definition no_options : PartialOptions :=
  {| p_placement := None; p_triggerType := None;
     p_offsetSkidding := None; p_offsetDistance := None |}.

Definition init0 : State := initial page0 1 (Some 2) no_options ["hidden"].

(** ** Attribute parsing *)

Definition code (c : ascii) : nat := nat_of_ascii c.

(** White space skipped by [parseInt] (the ASCII part of it). *)
Definition is_js_space (c : ascii) : bool :=
  existsb (Nat.eqb (code c)) [9; 10; 11; 12; 13; 32].

(** White space that separates class names. *)
Definition is_html_space (c : ascii) : bool :=
  existsb (Nat.eqb (code c)) [9; 10; 12; 13; 32].

Fixpoint trim_start (s : string) : string :=
  match s with
  | String c rest => if is_js_space c then trim_start rest else s
  | EmptyString => s
  end.

Definition digit_value (radix : nat) (c : ascii) : option Z :=
  let n := code c in
  let v := if Nat.leb 48 n && Nat.leb n 57 then Some (n - 48)
           else if Nat.leb 97 n && Nat.leb n 122 then Some (n - 87)
           else if Nat.leb 65 n && Nat.leb n 90 then Some (n - 55)
           else None in
  match v with
  | Some d => if Nat.ltb d radix then Some (Z.of_nat d) else None
  | None => None
  end.

(** Value of the longest prefix of digits; [None] when there is none. *)
Fixpoint digits_prefix (radix : nat) (s : string) (acc : option Z) : option Z :=
  match s with
  | EmptyString => acc
  | String c rest =>
      match digit_value radix c with
      | Some d =>
          digits_prefix radix rest
            (Some (or_default acc 0 * Z.of_nat radix + d)%Z)
      | None => acc
      end
  end.

(** [parseInt(string)] with no radix argument: leading white space, a
    sign, a [0x] prefix, then the digits; NaN when no digit follows.  The
    result is the integer the digits denote (rounding of integers beyond
    2^53 and the sign of zero are left out). *)
Definition parseInt (s : string) : jsnum :=
  let s := trim_start s in
  let '(sign, s) :=
    match s with
    | String "-" rest => ((-1)%Z, rest)
    | String "+" rest => (1%Z, rest)
    | _ => (1%Z, s)
    end in
  let '(radix, s) :=
    match s with
    | String "0" (String "x" rest) => (16, rest)
    | String "0" (String "X" rest) => (16, rest)
    | _ => (10, s)
    end in
  match digits_prefix radix s None with
  | Some v => Int (sign * v)
  | None => NaN
  end.

(** [v ? f(v) : d] for an attribute value: [null] and the empty string are
    falsy. *)
Definition if_truthy {A} (v : option string) (f : string -> A) (d : A) : A :=
  match v with
  | Some x => if String.eqb x "" then d else f x
  | None => d
  end.

Fixpoint class_tokens (s : string) (cur : string) : list string :=
  match s with
  | EmptyString => if String.eqb cur "" then [] else [cur]
  | String c rest =>
      if is_html_space c then
        if String.eqb cur "" then class_tokens rest ""
        else cur :: class_tokens rest ""
      else class_tokens rest (String.append cur (String c EmptyString))
  end.

(** [element.classList] as the class attribute gives it. *)
Definition classList (e : dom) : list string :=
  match getAttribute e "class" with
  | Some v => fold_left (fun l c => token_add c l) (class_tokens v "") []
  | None => []
  end.

(** ** The bulk initializer *)

(** The options object [initDropdowns] builds from the attributes of a
    trigger element. *)
Definition options_of_trigger (triggerEl : dom) : PartialOptions :=
  let placement_ := getAttribute triggerEl "data-dropdown-placement" in
  let offsetSkidding_ := getAttribute triggerEl "data-dropdown-offset-skidding" in
  let offsetDistance_ := getAttribute triggerEl "data-dropdown-offset-distance" in
  let triggerType_ := getAttribute triggerEl "data-dropdown-trigger" in
  {| p_placement := Some (if_truthy placement_ (fun v => v) (placement Default));
     p_triggerType := Some (if_truthy triggerType_ (fun v => v) (triggerType Default));
     p_offsetSkidding :=
       Some (if_truthy offsetSkidding_ parseInt (offsetSkidding Default));
     p_offsetDistance :=
       Some (if_truthy offsetDistance_ parseInt (offsetDistance Default)) |}.

Definition quote : string := String (ascii_of_nat 34) EmptyString.

Definition missing_target_message (dropdownId : string) : string :=
  String.append "The dropdown element with id "
    (String.append quote
       (String.append dropdownId
          (String.append quote
             " does not exist. Please check the data-dropdown-toggle attribute."))).

Record InitResult : Type := {
  constructed : list Constructed;
  console : list console_entry
}.

(** The body of the [forEach] callback for one trigger element. *)
Definition init_one (doc : dom) (acc : InitResult) (triggerEl : dom) : InitResult :=
  let dropdownId := or_default (getAttribute triggerEl "data-dropdown-toggle") "null" in
  match getElementById doc dropdownId with
  | Some dropdownEl =>
      let c := Dropdown_new doc (handle dropdownEl) (Some (handle triggerEl))
                            (options_of_trigger triggerEl) (classList dropdownEl) in
      {| constructed := constructed acc ++ [c];
         console := console acc ++ printed c |}
  | None =>
      {| constructed := constructed acc;
         console := console acc ++ [ConsoleError (missing_target_message dropdownId)] |}
  end.

Definition initDropdowns (doc : dom) : InitResult :=
  fold_left (init_one doc)
            (querySelectorAll_attr doc "data-dropdown-toggle")
            {| constructed := []; console := [] |}.

Definition is_error (e : console_entry) : bool :=
  match e with ConsoleError _ => true | ConsoleLog _ => false end.

(** The diagnostics: what went to [console.error]. *)
Definition diagnostics (r : InitResult) : list console_entry :=
  filter is_error (console r).

(** ** Vocabulary of the properties *)

Definition is_onShow (e : effect) : bool :=
  match e with CallOnShow => true | _ => false end.

Definition is_onHide (e : effect) : bool :=
  match e with CallOnHide => true | _ => false end.

(** Every registered function object was allocated before: the next
    arrow function is a new one. *)
Definition allocated (s : State) : bool :=
  forallb (fun r => Nat.ltb r (nextRef s)) (bodyClickCapture s).

(** The outside-click listener the controller can still remove is the one
    in its field. *)
Definition registered (s : State) : bool :=
  match bodyClickCapture s with [] => false | _ :: _ => true end.

(** The class state of the Visible and of the Hidden controller. *)
Definition shown_classes (s : State) : bool :=
  has_class "block" (targetClasses s) && negb (has_class "hidden" (targetClasses s)).

Definition hidden_classes (s : State) : bool :=
  has_class "hidden" (targetClasses s) && negb (has_class "block" (targetClasses s)).

(** A sequence of calls in which [show()] is never called on a Visible
    controller; [v] is the visibility before the first call. *)
Fixpoint no_show_while_visible (v : bool) (cs : list call) : bool :=
  match cs with
  | [] => true
  | Show :: rest => negb v && no_show_while_visible true rest
  | Hide :: rest => no_show_while_visible false rest
  | Toggle :: rest => no_show_while_visible (negb v) rest
  end.

(** The listener list and the field agree with the visibility: one
    listener, the stored one, when Visible; none when Hidden. *)
Definition paired (s : State) : bool :=
  if _visible s then
    match bodyClickCapture s, _clickOutsideEventListener s with
    | [r], Some r' => Nat.eqb r r'
    | _, _ => false
    end
  else
    match bodyClickCapture s with [] => true | _ :: _ => false end.

(** The function object of the latest [addEventListener] in a log. *)
Definition last_added (l : list effect) : option ref :=
  fold_left (fun acc e => match e with BodyAddListener r => Some r | _ => acc end)
            l None.

(** The element a trigger refers to, as [initDropdowns] looks it up. *)
Definition target_of (doc : dom) (triggerEl : dom) : option dom :=
  getElementById doc
    (or_default (getAttribute triggerEl "data-dropdown-toggle") "null").

Definition resolves (doc : dom) (triggerEl : dom) : bool :=
  match target_of doc triggerEl with Some _ => true | None => false end.

Definition dangling (doc : dom) (triggerEl : dom) : bool :=
  negb (resolves doc triggerEl).

(** The wiring of Click mode. *)
Definition click_wiring : list registration :=
  [ {| reg_on := OnTrigger; reg_event := "click"; reg_handler := CallToggle |} ].


(** One trigger that refers to the menu and one that refers to nothing. *)
Definition page_valid_and_dangling : dom :=
  Elem 0 [] [Elem 1 [("id", "menu"); ("class", "hidden")] [];
             Elem 2 [("data-dropdown-toggle", "menu")] [];
             Elem 3 [("data-dropdown-toggle", "nowhere")] []].

(** ** Events on the trigger and on the target *)

Definition same_element (a b : wired_element) : bool :=
  match a, b with
  | OnTrigger, OnTrigger => true
  | OnTarget, OnTarget => true
  | _, _ => false
  end.

(** A check left with [setTimeout]: the delay and the element whose
    [matches(':hover')] the callback tests. *)
Record timer : Type := {
  delay_ms : nat;
  unless_hovered : wired_element
}.

(** What a listener attached by [_init] does when it is called: the calls
    it makes at once and the timer it starts. *)
Definition call_listener (h : handler) (s : State) : State * list timer :=
  match h with
  | CallToggle => (toggle s, [])
  | CallShow => (show s, [])
  | HideLaterUnlessHovered ms other =>
      (s, [{| delay_ms := ms; unless_hovered := other |}])
  end.

(** The listeners of [el] for the event [ev] are called in the order of
    their registration. *)
Definition fire (regs : list registration) (el : wired_element) (ev : string)
           (s : State) : State * list timer :=
  fold_left
    (fun acc r =>
       if same_element (reg_on r) el && String.eqb (reg_event r) ev then
         (fst (call_listener (reg_handler r) (fst acc)),
          snd acc ++ snd (call_listener (reg_handler r) (fst acc)))
       else acc)
    regs (s, []).

(** The callback of a timer: [if (!other.matches(':hover')) this.hide()];
    [hovered] tells which elements are under the pointer when it runs. *)
Definition timer_fires (hovered : wired_element -> bool) (t : timer) (s : State)
  : State :=
  if negb (hovered (unless_hovered t)) then hide s else s.

(** The visibility after each call of a sequence, from visibility [v]. *)
Fixpoint visibility_after (v : bool) (cs : list call) : list bool :=
  match cs with
  | [] => []
  | Show :: rest => true :: visibility_after true rest
  | Hide :: rest => false :: visibility_after false rest
  | Toggle :: rest => negb v :: visibility_after (negb v) rest
  end.

(** The wiring of Hover mode. *)
Definition hover_wiring_list : list registration :=
  [ {| reg_on := OnTrigger; reg_event := "mouseenter"; reg_handler := CallShow |};
    {| reg_on := OnTarget; reg_event := "mouseenter"; reg_handler := CallShow |};
    {| reg_on := OnTrigger; reg_event := "click"; reg_handler := CallToggle |};
    {| reg_on := OnTarget; reg_event := "click"; reg_handler := CallShow |};
    {| reg_on := OnTrigger; reg_event := "mouseleave";
       reg_handler := HideLaterUnlessHovered 100 OnTarget |};
    {| reg_on := OnTarget; reg_event := "mouseleave";
       reg_handler := HideLaterUnlessHovered 100 OnTrigger |} ].

(** The decimal numeral of a natural number, as markup writes it. *)
Definition decimal (n : nat) : string :=
  NilEmpty.string_of_uint (Nat.to_uint n).

(** The controller a trigger gets from [initDropdowns], if its target
    resolves. *)
Definition controller_for (doc : dom) (triggerEl : dom) : list Constructed :=
  match target_of doc triggerEl with
  | Some dropdownEl =>
      [Dropdown_new doc (handle dropdownEl) (Some (handle triggerEl))
                    (options_of_trigger triggerEl) (classList dropdownEl)]
  | None => []
  end.

(** * Properties *)

(** ** The model on small inputs *)

Example parseInt_px : parseInt "12px" = Int 12.
Proof. reflexivity. Qed.

Example parseInt_negative : parseInt " -7" = Int (-7).
Proof. reflexivity. Qed.

Example parseInt_hex : parseInt "0x1f" = Int 31.
Proof. reflexivity. Qed.

Example parseInt_letters : parseInt "abc" = NaN.
Proof. reflexivity. Qed.

Example classList_of_attribute :
  classList (Elem 1 [("class", "  hidden  z-10 hidden")] []) = ["hidden"; "z-10"].
Proof. reflexivity. Qed.

Example contains_self_and_child :
  contains page0 0 2 = true /\ contains page0 1 2 = false /\ contains page0 2 2 = true.
Proof. repeat split. Qed.

Example show_on_new_controller :
  targetClasses (show init0) = ["block"]
  /\ bodyClickCapture (show init0) = [0]
  /\ _visible (show init0) = true.
Proof. repeat split. Qed.

Example click_on_trigger_in_click_mode :
  wiring (Dropdown_new page0 1 (Some 2) no_options ["hidden"]) = click_wiring.
Proof. reflexivity. Qed.

Example hover_wiring :
  map (fun r => (reg_on r, reg_event r, reg_handler r))
      (wiring (Dropdown_new page0 1 (Some 2)
                 {| p_placement := None; p_triggerType := Some "hover";
                    p_offsetSkidding := None; p_offsetDistance := None |}
                 ["hidden"]))
  = [ (OnTrigger, "mouseenter", CallShow); (OnTarget, "mouseenter", CallShow);
      (OnTrigger, "click", CallToggle); (OnTarget, "click", CallShow);
      (OnTrigger, "mouseleave", HideLaterUnlessHovered 100 OnTarget);
      (OnTarget, "mouseleave", HideLaterUnlessHovered 100 OnTrigger) ].
Proof. reflexivity. Qed.

Example no_trigger_no_wiring :
  wiring (Dropdown_new page0 1 None no_options ["hidden"]) = [].
Proof. reflexivity. Qed.

(** ** Class lists *)

Lemma has_class_remove_same c l : has_class c (token_remove c l) = false.
Proof.
  unfold has_class, token_remove.
  induction l as [|x l IH]; simpl; [reflexivity|].
  destruct (String.eqb x c) eqn:E; simpl; [exact IH|].
  rewrite String.eqb_sym, E. exact IH.
Qed.

Lemma has_class_remove_other c d l :
  c <> d -> has_class c (token_remove d l) = has_class c l.
Proof.
  intros N. unfold has_class, token_remove.
  induction l as [|x l IH]; simpl; [reflexivity|].
  destruct (String.eqb x d) eqn:E; simpl.
  - apply String.eqb_eq in E. subst x.
    apply String.eqb_neq in N. rewrite N. exact IH.
  - rewrite IH. reflexivity.
Qed.

Lemma has_class_app c l l' :
  has_class c (l ++ l') = has_class c l || has_class c l'.
Proof. unfold has_class. apply existsb_app. Qed.

Lemma has_class_add_same c l : has_class c (token_add c l) = true.
Proof.
  unfold token_add. destruct (existsb (String.eqb c) l) eqn:E.
  - exact E.
  - rewrite has_class_app. simpl. rewrite String.eqb_refl.
    apply orb_true_iff. right. reflexivity.
Qed.

Lemma has_class_add_other c d l :
  c <> d -> has_class c (token_add d l) = has_class c l.
Proof.
  intros N. unfold token_add. destruct (existsb (String.eqb d) l); [reflexivity|].
  rewrite has_class_app. simpl. apply String.eqb_neq in N. rewrite N.
  rewrite !orb_false_r. reflexivity.
Qed.

Lemma hidden_neq_block : "hidden" <> "block".
Proof. discriminate. Qed.

Lemma block_neq_hidden : "block" <> "hidden".
Proof. discriminate. Qed.

(** ** What [show] and [hide] leave behind *)

Lemma show_classes s :
  targetClasses (show s) = token_add "block" (token_remove "hidden" (targetClasses s)).
Proof. reflexivity. Qed.

Lemma hide_classes s :
  targetClasses (hide s) = token_add "hidden" (token_remove "block" (targetClasses s)).
Proof. reflexivity. Qed.

Lemma show_visible s : _visible (show s) = true.
Proof. reflexivity. Qed.

Lemma hide_visible s : _visible (hide s) = false.
Proof. reflexivity. Qed.

Lemma hide_target s : _targetEl (hide s) = _targetEl s.
Proof. reflexivity. Qed.

Lemma hide_trigger s : _triggerEl (hide s) = _triggerEl s.
Proof. reflexivity. Qed.

Lemma hide_document s : document (hide s) = document s.
Proof. reflexivity. Qed.

Lemma show_body s :
  bodyClickCapture (show s) = listener_add (nextRef s) (bodyClickCapture s).
Proof. reflexivity. Qed.

Lemma hide_body s :
  bodyClickCapture (hide s)
  = listener_remove (_clickOutsideEventListener s) (bodyClickCapture s).
Proof. reflexivity. Qed.

Lemma show_field s : _clickOutsideEventListener (show s) = Some (nextRef s).
Proof. reflexivity. Qed.

Lemma hide_field s :
  _clickOutsideEventListener (hide s) = _clickOutsideEventListener s.
Proof. reflexivity. Qed.

Lemma show_nextRef s : nextRef (show s) = S (nextRef s).
Proof. reflexivity. Qed.

Lemma hide_nextRef s : nextRef (hide s) = nextRef s.
Proof. reflexivity. Qed.

Lemma show_has_block s : has_class "block" (targetClasses (show s)) = true.
Proof. rewrite show_classes. apply has_class_add_same. Qed.

Lemma show_not_hidden s : has_class "hidden" (targetClasses (show s)) = false.
Proof.
  rewrite show_classes, has_class_add_other by exact hidden_neq_block.
  apply has_class_remove_same.
Qed.

Lemma hide_has_hidden s : has_class "hidden" (targetClasses (hide s)) = true.
Proof. rewrite hide_classes. apply has_class_add_same. Qed.

Lemma hide_not_block s : has_class "block" (targetClasses (hide s)) = false.
Proof.
  rewrite hide_classes, has_class_add_other by exact block_neq_hidden.
  apply has_class_remove_same.
Qed.

Lemma eventListenersEnabled_from_last ms b acc :
  eventListenersEnabled_from (ms ++ [EventListenersModifier b]) acc = b.
Proof.
  revert acc. induction ms as [|m ms IH]; intros acc; simpl; [reflexivity|].
  destruct m; apply IH.
Qed.

Lemma show_enables_popper s : eventListenersEnabled (show s) = true.
Proof. apply eventListenersEnabled_from_last. Qed.

Lemma hide_disables_popper s : eventListenersEnabled (hide s) = false.
Proof. apply eventListenersEnabled_from_last. Qed.

Lemma show_log s :
  log (show s) =
  log s ++ [ClassRemove "hidden"; ClassAdd "block";
            PopperSetOptions (popperModifiers s ++ [EventListenersModifier true]);
            BodyAddListener (nextRef s); PopperUpdate; CallOnShow].
Proof.
  unfold show.
  cbn [classList_remove classList_add popper_setOptions set_visible
       _setupClickOutsideListener popper_update with_log with_classes log
       popperModifiers nextRef].
  rewrite <- !app_assoc. reflexivity.
Qed.

Lemma hide_log s :
  log (hide s) =
  log s ++ [ClassRemove "block"; ClassAdd "hidden";
            PopperSetOptions (popperModifiers s ++ [EventListenersModifier false]);
            BodyRemoveListener (_clickOutsideEventListener s); CallOnHide].
Proof.
  unfold hide.
  cbn [classList_remove classList_add popper_setOptions set_visible
       _removeClickOutsideListener with_log with_classes log
       popperModifiers _clickOutsideEventListener].
  rewrite <- !app_assoc. reflexivity.
Qed.

Lemma hide_log_longer s : List.length (log (hide s)) = 5 + List.length (log s).
Proof. rewrite hide_log, List.length_app. simpl. lia. Qed.

Lemma hide_changes s : hide s <> s.
Proof.
  intros E. pose proof (hide_log_longer s) as L. rewrite E in L. lia.
Qed.

(** ** Toggling *)

Lemma run_app cs cs' s : run (cs ++ cs') s = run cs' (run cs s).
Proof. apply fold_left_app. Qed.

Lemma toggle_flips s : _visible (toggle s) = negb (_visible s).
Proof. unfold toggle. destruct (_visible s); reflexivity. Qed.

Lemma toggles_visible n : forall s,
  _visible (run (repeat Toggle n) s) = xorb (_visible s) (Nat.odd n).
Proof.
  induction n as [|n IH]; intros s.
  - simpl. rewrite xorb_false_r. reflexivity.
  - change (run (repeat Toggle (S n)) s) with (run (repeat Toggle n) (toggle s)).
    rewrite IH, toggle_flips, Nat.odd_succ, <- Nat.negb_odd.
    destruct (_visible s), (Nat.odd n); reflexivity.
Qed.

(** C2. After exactly N calls of [toggle()] on a freshly constructed
    controller with a trigger element (it starts Hidden), the controller
    is Visible if and only if N is odd. *)
Theorem C2_toggle_parity :
  forall doc target tr options classes N,
    _visible (run (repeat Toggle N) (initial doc target (Some tr) options classes)) = true
    <-> Nat.Odd N.
Proof.
  intros. rewrite toggles_visible, <- Nat.odd_spec.
  reflexivity.
Qed.

(** ** Order of the effects *)




(** C10. [hide()] has no guard: on a Hidden controller (with a trigger
    element) it removes "block"
    and adds "hidden" again, disables the listeners of the positioning
    engine again, passes the stored listener to [removeEventListener], and
    calls [onHide] once more; the controller stays Hidden. *)
Theorem C10_hide_while_hidden :
  forall s tr,
    _triggerEl s = Some tr ->
    _visible s = false ->
    log (hide s) =
      log s ++ [ClassRemove "block"; ClassAdd "hidden";
                PopperSetOptions (popperModifiers s ++ [EventListenersModifier false]);
                BodyRemoveListener (_clickOutsideEventListener s); CallOnHide]
    /\ has_class "hidden" (targetClasses (hide s)) = true
    /\ has_class "block" (targetClasses (hide s)) = false
    /\ eventListenersEnabled (hide s) = false
    /\ List.length (filter is_onHide (log (hide s)))
       = S (List.length (filter is_onHide (log s)))
    /\ _visible (hide s) = false.
Proof.
  intros s tr _ _. repeat split.
  - apply hide_log.
  - apply hide_has_hidden.
  - apply hide_not_block.
  - apply hide_disables_popper.
  - rewrite hide_log, filter_app, List.length_app. simpl. lia.
Qed.

Lemma C10_hide_while_hidden_witness :
  _triggerEl (hide init0) = Some 2
  /\ _visible (hide init0) = false
  /\ List.length (filter is_onHide (log (hide (hide init0)))) = 2
  /\ _visible (hide (hide init0)) = false.
Proof.
  split; [reflexivity|]. split; [reflexivity|].
  pose proof (C10_hide_while_hidden (hide init0) 2 eq_refl eq_refl) as H.
  destruct H as (_ & _ & _ & _ & Hn & Hv).
  split; [exact Hn | exact Hv].
Defined.

(** ** Outside clicks *)

Lemma Returned_inj a b : Returned a = Returned b -> a = b.
Proof. intros H. injection H as H. exact H. Qed.

(** Closes a goal that assumes the handler returned [hide s] although it
    returned [s]. *)
Ltac hide_was_not_called :=
  let H := fresh "H" in
  intros H; apply Returned_inj in H; exfalso;
  exact (hide_changes _ (eq_sym H)).




(** C3. For a click delivered to the outside-click handler of a controller
    that has a trigger element: [hide()] is called if and only if the
    clicked node is not the target, is not contained in the target, is not
    contained in the trigger, and the controller is Visible; in every other
    case the handler returns with the state as it was. *)
Theorem C3_outside_click :
  forall s clickedEl triggerEl,
    _triggerEl s = Some triggerEl ->
    (_handleClickOutside clickedEl s = Returned (hide s)
     <-> (clickedEl <> _targetEl s
          /\ contains (document s) (_targetEl s) clickedEl = false
          /\ contains (document s) triggerEl clickedEl = false
          /\ _visible s = true))
    /\ (_handleClickOutside clickedEl s <> Returned (hide s)
        -> _handleClickOutside clickedEl s = Returned s).
Proof.
  intros s c tr Htr. unfold _handleClickOutside. rewrite Htr.
  destruct (Nat.eqb c (_targetEl s)) eqn:E1; simpl.
  { apply Nat.eqb_eq in E1. split.
    - split.
      + hide_was_not_called.
      + intros [N _]. contradiction.
    - reflexivity. }
  apply Nat.eqb_neq in E1.
  destruct (contains (document s) (_targetEl s) c) eqn:E2; simpl.
  { split.
    - split.
      + hide_was_not_called.
      + intros (_ & F & _). discriminate.
    - reflexivity. }
  destruct (contains (document s) tr c) eqn:E3; simpl.
  { split.
    - split.
      + hide_was_not_called.
      + intros (_ & _ & F & _). discriminate.
    - reflexivity. }
  destruct (_visible s) eqn:E4.
  - split.
    + split; [intros _; repeat split; assumption | reflexivity].
    + intros N. exfalso. apply N. reflexivity.
  - split.
    + split.
      * hide_was_not_called.
      * intros (_ & _ & _ & F). discriminate.
    + reflexivity.
Qed.

Lemma C3_outside_click_witness :
  _triggerEl (show init0) = Some 2
  /\ _handleClickOutside 0 (show init0) = Returned (hide (show init0))
  /\ _handleClickOutside 2 (show init0) = Returned (show init0).
Proof.
  split; [reflexivity|].
  split.
  - apply (C3_outside_click (show init0) 0 2 eq_refl).
    repeat split. discriminate.
  - apply (C3_outside_click (show init0) 2 2 eq_refl).
    intros H.
    apply (C3_outside_click (show init0) 2 2 eq_refl) in H.
    destruct H as (_ & _ & F & _). discriminate F.
Defined.

(** ** Visibility, classes and the outside-click listener *)

Lemma step_classes s c :
  (if _visible (step s c) then shown_classes (step s c)
   else hidden_classes (step s c)) = true.
Proof.
  assert (Hs : (if _visible (show s) then shown_classes (show s)
                else hidden_classes (show s)) = true).
  { rewrite show_visible. unfold shown_classes.
    rewrite show_has_block, show_not_hidden. reflexivity. }
  assert (Hh : (if _visible (hide s) then shown_classes (hide s)
                else hidden_classes (hide s)) = true).
  { rewrite hide_visible. unfold hidden_classes.
    rewrite hide_has_hidden, hide_not_block. reflexivity. }
  destruct c; cbn [step]; [exact Hs | exact Hh |].
  unfold toggle. destruct (_visible s); [exact Hh | exact Hs].
Qed.

(** The part of the invariant that every sequence of calls keeps: the
    classes of the target follow the visibility. *)
Lemma classes_follow_visibility cs : forall s,
  (if _visible s then shown_classes s else hidden_classes s) = true ->
  (if _visible (run cs s) then shown_classes (run cs s)
   else hidden_classes (run cs s)) = true.
Proof.
  induction cs as [|c cs IH]; intros s H; [exact H|].
  cbn [run fold_left]. apply IH. apply step_classes.
Qed.

Lemma paired_hide s : paired s = true -> paired (hide s) = true.
Proof.
  unfold paired. rewrite hide_visible, hide_body.
  destruct (_visible s).
  - destruct (bodyClickCapture s) as [|r [|r2 l]]; try discriminate.
    destruct (_clickOutsideEventListener s) as [r'|]; try discriminate.
    intros E. simpl. rewrite E. reflexivity.
  - destruct (bodyClickCapture s); try discriminate.
    intros _. destruct (_clickOutsideEventListener s); reflexivity.
Qed.

Lemma paired_show s :
  _visible s = false -> paired s = true -> paired (show s) = true.
Proof.
  unfold paired. intros V. rewrite V.
  rewrite show_visible, show_body, show_field.
  destruct (bodyClickCapture s); try discriminate.
  intros _. simpl. apply Nat.eqb_refl.
Qed.

(** As long as [show()] is not called on a Visible controller, the
    listener is registered exactly while the controller is Visible. *)
Lemma paired_run cs : forall s,
  no_show_while_visible (_visible s) cs = true ->
  paired s = true -> paired (run cs s) = true.
Proof.
  induction cs as [|c cs IH]; intros s G P; [exact P|].
  cbn [run fold_left]. destruct c; cbn [no_show_while_visible] in G; cbn [step].
  - apply andb_true_iff in G. destruct G as [V G].
    apply negb_true_iff in V.
    apply IH; [exact G | apply paired_show; assumption].
  - apply IH; [exact G | apply paired_hide; assumption].
  - unfold toggle. destruct (_visible s) eqn:V; cbn [negb] in G.
    + apply IH; [rewrite hide_visible; exact G | apply paired_hide; assumption].
    + apply IH; [rewrite show_visible; exact G | apply paired_show; assumption].
Qed.

(** C1. Evaluation at [show(); show(); hide()] on a freshly constructed
    controller: the controller is Hidden and its target carries "hidden"
    and not "block", yet the listener registered by the first [show()] is
    still registered on the document. *)
Theorem C1_hidden_with_listener_registered :
  forall doc target trigger options classes,
    _visible (run [Show; Show; Hide] (initial doc target trigger options classes)) = false
    /\ hidden_classes
         (run [Show; Show; Hide] (initial doc target trigger options classes)) = true
    /\ bodyClickCapture
         (run [Show; Show; Hide] (initial doc target trigger options classes)) = [0]
    /\ registered
         (run [Show; Show; Hide] (initial doc target trigger options classes)) = true.
Proof.
  intros. split; [reflexivity|]. split; [|split; reflexivity].
  change (run [Show; Show; Hide] (initial doc target trigger options classes))
    with (hide (show (show (initial doc target trigger options classes)))).
  unfold hidden_classes. rewrite hide_has_hidden, hide_not_block. reflexivity.
Qed.

(** ** Registration and removal of the outside-click listener *)

Lemma last_added_app l l' :
  last_added (l ++ l') =
  fold_left (fun acc e => match e with BodyAddListener r => Some r | _ => acc end)
            l' (last_added l).
Proof. unfold last_added. apply fold_left_app. Qed.

(** The reference [hide()] passes to [removeEventListener] is the one the
    latest [show()] passed to [addEventListener]. *)
Lemma field_is_last_added cs : forall s,
  _clickOutsideEventListener s = last_added (log s) ->
  _clickOutsideEventListener (run cs s) = last_added (log (run cs s)).
Proof.
  assert (Hs : forall s, _clickOutsideEventListener (show s) = last_added (log (show s))).
  { intros s. rewrite show_log, last_added_app. reflexivity. }
  assert (Hh : forall s, _clickOutsideEventListener s = last_added (log s) ->
                         _clickOutsideEventListener (hide s) = last_added (log (hide s))).
  { intros s H. rewrite hide_log, last_added_app. simpl. exact H. }
  induction cs as [|c cs IH]; intros s H; [exact H|].
  cbn [run fold_left]. apply IH. destruct c; cbn [step]; [apply Hs | apply Hh, H |].
  unfold toggle. destruct (_visible s); [apply Hh, H | apply Hs].
Qed.

Lemma filter_keeps (r x : ref) l :
  x <> r -> In x l -> In x (filter (fun y => negb (Nat.eqb y r)) l).
Proof.
  intros N H. apply filter_In. split; [exact H|].
  apply negb_true_iff, Nat.eqb_neq. exact N.
Qed.

Lemma listener_add_keeps r x l : In x l -> In x (listener_add r l).
Proof.
  intros H. unfold listener_add. destruct (existsb (Nat.eqb r) l); [exact H|].
  apply in_or_app. left. exact H.
Qed.

(** A listener that is registered but is not the stored one, on a
    controller whose next function object is a later one, stays
    registered whatever is called from then on. *)
Lemma stale_listener_stays cs : forall s x,
  In x (bodyClickCapture s) ->
  x < nextRef s ->
  (forall r, _clickOutsideEventListener s = Some r -> x < r) ->
  In x (bodyClickCapture (run cs s)).
Proof.
  assert (Hs : forall s x, In x (bodyClickCapture s) -> x < nextRef s ->
             In x (bodyClickCapture (show s)) /\ x < nextRef (show s)
             /\ (forall r, _clickOutsideEventListener (show s) = Some r -> x < r)).
  { intros s x I L. rewrite show_body, show_nextRef, show_field.
    split; [apply listener_add_keeps, I|].
    split; [lia|]. intros r E. injection E as E. lia. }
  assert (Hh : forall s x, In x (bodyClickCapture s) -> x < nextRef s ->
             (forall r, _clickOutsideEventListener s = Some r -> x < r) ->
             In x (bodyClickCapture (hide s)) /\ x < nextRef (hide s)
             /\ (forall r, _clickOutsideEventListener (hide s) = Some r -> x < r)).
  { intros s x I L F. rewrite hide_body, hide_nextRef, hide_field.
    split; [|split; [exact L | exact F]].
    destruct (_clickOutsideEventListener s) as [r|] eqn:E; [|exact I].
    simpl. apply filter_keeps; [|exact I]. specialize (F r eq_refl). lia. }
  induction cs as [|c cs IH]; intros s x I L F; [exact I|].
  cbn [run fold_left].
  assert (K : In x (bodyClickCapture (step s c)) /\ x < nextRef (step s c)
              /\ (forall r, _clickOutsideEventListener (step s c) = Some r -> x < r)).
  { destruct c; cbn [step]; [apply Hs | apply Hh | ]; try assumption.
    unfold toggle. destruct (_visible s); [apply Hh | apply Hs]; assumption. }
  destruct K as (I' & L' & F'). apply IH; assumption.
Qed.

(** C7. Evaluation at [show(); show()] on a freshly constructed
    controller: two outside-click listeners are registered at the same
    time; the field holds the second one only, so [hide()] removes that
    one and the first stays registered, after [hide()] and after any
    further calls. *)
Theorem C7_repeated_show_registers_twice :
  forall doc target trigger options classes,
    bodyClickCapture (run [Show; Show] (initial doc target trigger options classes))
      = [0; 1]
    /\ _clickOutsideEventListener
         (run [Show; Show] (initial doc target trigger options classes)) = Some 1
    /\ bodyClickCapture
         (run [Show; Show; Hide] (initial doc target trigger options classes)) = [0]
    /\ (forall cs,
          In 0 (bodyClickCapture
                  (run ([Show; Show] ++ cs)
                       (initial doc target trigger options classes)))).
Proof.
  intros. split; [reflexivity|]. split; [reflexivity|]. split; [reflexivity|].
  intros cs. rewrite run_app.
  change (run [Show; Show] (initial doc target trigger options classes))
    with (show (show (initial doc target trigger options classes))).
  apply stale_listener_stays.
  - left. reflexivity.
  - rewrite !show_nextRef. lia.
  - rewrite show_field, show_nextRef. intros r E. injection E as E.
    change (nextRef (initial doc target trigger options classes)) with 0 in E. lia.
Qed.


(** ** Round trip *)

Lemma remove_fresh (n : ref) (l : list ref) :
  forallb (fun r => Nat.ltb r n) l = true ->
  filter (fun x => negb (Nat.eqb x n)) l = l.
Proof.
  induction l as [|x l IH]; intros H; [reflexivity|].
  cbn [forallb] in H. apply andb_true_iff in H. destruct H as [Hx Hl].
  apply Nat.ltb_lt in Hx. cbn [filter].
  replace (Nat.eqb x n) with false by (symmetry; apply Nat.eqb_neq; lia).
  cbn [negb]. rewrite IH by exact Hl. reflexivity.
Qed.

Lemma fresh_not_registered (n : ref) (l : list ref) :
  forallb (fun r => Nat.ltb r n) l = true -> existsb (Nat.eqb n) l = false.
Proof.
  induction l as [|x l IH]; intros H; [reflexivity|].
  cbn [forallb] in H. apply andb_true_iff in H. destruct H as [Hx Hl].
  apply Nat.ltb_lt in Hx. cbn [existsb].
  replace (Nat.eqb n x) with false by (symmetry; apply Nat.eqb_neq; lia).
  apply IH, Hl.
Qed.

Lemma add_then_remove (n : ref) (l : list ref) :
  forallb (fun r => Nat.ltb r n) l = true ->
  listener_remove (Some n) (listener_add n l) = l.
Proof.
  intros H. unfold listener_add, listener_remove.
  rewrite (fresh_not_registered n l H).
  rewrite filter_app, (remove_fresh n l H).
  cbn [filter]. rewrite Nat.eqb_refl. cbn [negb]. apply app_nil_r.
Qed.

Lemma round_trip_classes (l : list string) (c : string) :
  has_class "hidden" l = true ->
  has_class "block" l = false ->
  has_class c (token_add "hidden" (token_remove "block"
                 (token_add "block" (token_remove "hidden" l))))
  = has_class c l.
Proof.
  intros Hh Hb.
  destruct (string_dec c "hidden") as [E|Nh].
  { subst c. rewrite has_class_add_same, Hh. reflexivity. }
  rewrite has_class_add_other by exact Nh.
  destruct (string_dec c "block") as [E|Nb].
  { subst c. rewrite has_class_remove_same, Hb. reflexivity. }
  rewrite has_class_remove_other by exact Nb.
  rewrite has_class_add_other by exact Nb.
  apply has_class_remove_other. exact Nh.
Qed.

(** C6, as amended.  On a target that carries "hidden" and not "block",
    [show()] followed at once by [hide()] leaves the target with the same
    classes and the document with the same listeners as before [show()],
    whatever listeners were registered. *)
Theorem C6_round_trip_from_hidden_classes :
  forall s,
    allocated s = true ->
    has_class "hidden" (targetClasses s) = true ->
    has_class "block" (targetClasses s) = false ->
    (forall c, has_class c (targetClasses (hide (show s)))
               = has_class c (targetClasses s))
    /\ bodyClickCapture (hide (show s)) = bodyClickCapture s.
Proof.
  intros s A Hh Hb. split.
  - intros c. rewrite hide_classes, show_classes.
    apply round_trip_classes; assumption.
  - rewrite hide_body, show_field, show_body.
    apply add_then_remove. exact A.
Qed.

Lemma C6_round_trip_from_hidden_classes_witness :
  allocated (hide (show (show init0))) = true
  /\ has_class "hidden" (targetClasses (hide (show (show init0)))) = true
  /\ has_class "block" (targetClasses (hide (show (show init0)))) = false
  /\ bodyClickCapture (hide (show (hide (show (show init0)))))
     = bodyClickCapture (hide (show (show init0))).
Proof.
  split; [reflexivity|]. split; [reflexivity|]. split; [reflexivity|].
  apply (C6_round_trip_from_hidden_classes (hide (show (show init0))));
    reflexivity.
Defined.

(** C6 as stated fails: a target that carries "block" and not "hidden"
    before [show()] carries "hidden" and not "block" after [show()] and
    [hide()]. *)
Lemma C6_counterexample_block_target :
  targetClasses (initial page0 1 (Some 2) no_options ["block"]) = ["block"]
  /\ targetClasses (hide (show (initial page0 1 (Some 2) no_options ["block"])))
     = ["hidden"].
Proof. split; reflexivity. Qed.

(** ** Trigger wiring *)

(** C4. Evaluation at a trigger type that is neither "click" nor "hover":
    [_getTriggerEvents] answers with the events of Click mode, but [_init]
    attaches no listener at all, where Click mode attaches the click
    listener that calls [toggle()]. *)
Theorem C4_unrecognised_trigger_type_wires_nothing :
  forall doc target trigger partial classes,
    triggerType (merge_options partial) <> "click" ->
    triggerType (merge_options partial) <> "hover" ->
    _getTriggerEvents (merge_options partial)
      = {| showEvents := ["click"]; hideEvents := [] |}
    /\ wiring (Dropdown_new doc target (Some trigger) partial classes) = []
    /\ printed (Dropdown_new doc target (Some trigger) partial classes) = []
    /\ wiring (Dropdown_new doc target (Some trigger) no_options classes)
       = click_wiring.
Proof.
  intros doc target trigger partial classes Nc Nh.
  apply String.eqb_neq in Nc. apply String.eqb_neq in Nh.
  unfold Dropdown_new, _init, _getTriggerEvents.
  cbn [wiring printed fst snd]. rewrite Nc, Nh.
  repeat split.
Qed.

Lemma C4_unrecognised_trigger_type_wires_nothing_witness :
  triggerType (merge_options
                 {| p_placement := None; p_triggerType := Some "focus";
                    p_offsetSkidding := None; p_offsetDistance := None |})
    <> "click"
  /\ triggerType (merge_options
                    {| p_placement := None; p_triggerType := Some "focus";
                       p_offsetSkidding := None; p_offsetDistance := None |})
    <> "hover"
  /\ wiring (Dropdown_new page0 1 (Some 2)
               {| p_placement := None; p_triggerType := Some "focus";
                  p_offsetSkidding := None; p_offsetDistance := None |}
               ["hidden"]) = [].
Proof.
  split; [discriminate|]. split; [discriminate|].
  apply (C4_unrecognised_trigger_type_wires_nothing page0 1 2
           {| p_placement := None; p_triggerType := Some "focus";
              p_offsetSkidding := None; p_offsetDistance := None |}
           ["hidden"]); discriminate.
Defined.

(** ** The bulk initializer *)





Lemma printed_no_error doc target trigger options classes :
  filter is_error (printed (Dropdown_new doc target trigger options classes)) = [].
Proof.
  unfold Dropdown_new, _init. cbn [printed].
  destruct trigger; [|reflexivity].
  cbn [snd]. destruct (String.eqb (triggerType (merge_options options)) "hover");
    reflexivity.
Qed.

Lemma init_one_resolved doc acc e t :
  target_of doc e = Some t ->
  init_one doc acc e =
  {| constructed :=
       constructed acc ++
       [Dropdown_new doc (handle t) (Some (handle e)) (options_of_trigger e)
                     (classList t)];
     console :=
       console acc ++
       printed (Dropdown_new doc (handle t) (Some (handle e))
                             (options_of_trigger e) (classList t)) |}.
Proof. unfold target_of, init_one. intros E. rewrite E. reflexivity. Qed.

Lemma init_one_dangling doc acc e :
  target_of doc e = None ->
  init_one doc acc e =
  {| constructed := constructed acc;
     console :=
       console acc ++
       [ConsoleError
          (missing_target_message
             (or_default (getAttribute e "data-dropdown-toggle") "null"))] |}.
Proof. unfold target_of, init_one. intros E. rewrite E. reflexivity. Qed.

(** The [forEach] of [initDropdowns], from any accumulated result: one
    controller per trigger that resolves, one [console.error] per trigger
    that does not, each in the order of the triggers. *)
Lemma init_fold doc ts : forall acc,
  map (fun c => _triggerEl (controller c))
      (constructed (fold_left (init_one doc) ts acc))
  = map (fun c => _triggerEl (controller c)) (constructed acc)
    ++ map (fun e => Some (handle e)) (filter (resolves doc) ts)
  /\ diagnostics (fold_left (init_one doc) ts acc)
  = diagnostics acc
    ++ map (fun e => ConsoleError
                       (missing_target_message
                          (or_default (getAttribute e "data-dropdown-toggle") "null")))
           (filter (dangling doc) ts).
Proof.
  induction ts as [|e ts IH]; intros acc.
  - cbn [fold_left filter map]. rewrite !app_nil_r. split; reflexivity.
  - cbn [fold_left filter].
    destruct (target_of doc e) as [t|] eqn:E.
    + assert (R : resolves doc e = true) by (unfold resolves; rewrite E; reflexivity).
      assert (D : dangling doc e = false) by (unfold dangling; rewrite R; reflexivity).
      rewrite R, D, (init_one_resolved doc acc e t E).
      destruct (IH {| constructed :=
                        constructed acc ++
                        [Dropdown_new doc (handle t) (Some (handle e))
                                      (options_of_trigger e) (classList t)];
                      console :=
                        console acc ++
                        printed (Dropdown_new doc (handle t) (Some (handle e))
                                   (options_of_trigger e) (classList t)) |})
        as [IHc IHd].
      split.
      * rewrite IHc. cbn [constructed]. rewrite map_app, <- app_assoc.
        reflexivity.
      * rewrite IHd. unfold diagnostics. cbn [console].
        rewrite filter_app, printed_no_error, app_nil_r. reflexivity.
    + assert (R : resolves doc e = false) by (unfold resolves; rewrite E; reflexivity).
      assert (D : dangling doc e = true) by (unfold dangling; rewrite R; reflexivity).
      rewrite R, D, (init_one_dangling doc acc e E).
      destruct (IH {| constructed := constructed acc;
                      console :=
                        console acc ++
                        [ConsoleError
                           (missing_target_message
                              (or_default (getAttribute e "data-dropdown-toggle")
                                          "null"))] |})
        as [IHc IHd].
      split.
      * rewrite IHc. reflexivity.
      * rewrite IHd. unfold diagnostics. cbn [console map].
        rewrite filter_app, <- app_assoc. reflexivity.
Qed.

(** C9. The bulk initializer constructs one controller for each marked
    trigger whose target identifier resolves, in order, and reports one
    diagnostic for each trigger whose identifier does not resolve, and
    nothing else; with one trigger of each kind, one controller is
    constructed and one diagnostic is reported. *)
Theorem C9_bulk_init_skips_dangling :
  forall doc,
    map (fun c => _triggerEl (controller c)) (constructed (initDropdowns doc))
    = map (fun e => Some (handle e))
          (filter (resolves doc) (querySelectorAll_attr doc "data-dropdown-toggle"))
    /\ diagnostics (initDropdowns doc)
    = map (fun e => ConsoleError
                      (missing_target_message
                         (or_default (getAttribute e "data-dropdown-toggle") "null")))
          (filter (dangling doc) (querySelectorAll_attr doc "data-dropdown-toggle"))
    /\ (List.length
          (filter (resolves doc) (querySelectorAll_attr doc "data-dropdown-toggle")) = 1
        -> List.length
          (filter (dangling doc) (querySelectorAll_attr doc "data-dropdown-toggle")) = 1
        -> List.length (constructed (initDropdowns doc)) = 1
           /\ List.length (diagnostics (initDropdowns doc)) = 1).
Proof.
  intros doc. unfold initDropdowns.
  destruct (init_fold doc (querySelectorAll_attr doc "data-dropdown-toggle")
                      {| constructed := []; console := [] |}) as [Hc Hd].
  cbn [constructed map app] in Hc. unfold diagnostics at 2 in Hd.
  cbn [console filter app] in Hd.
  split; [exact Hc|]. split; [exact Hd|].
  intros Lr Ld. split.
  - rewrite <- (length_map (fun c => _triggerEl (controller c))), Hc, length_map.
    exact Lr.
  - rewrite Hd, length_map. exact Ld.
Qed.

Lemma C9_bulk_init_skips_dangling_witness :
  List.length (filter (resolves page_valid_and_dangling)
                 (querySelectorAll_attr page_valid_and_dangling
                                        "data-dropdown-toggle")) = 1
  /\ List.length (filter (dangling page_valid_and_dangling)
                    (querySelectorAll_attr page_valid_and_dangling
                                           "data-dropdown-toggle")) = 1
  /\ List.length (constructed (initDropdowns page_valid_and_dangling)) = 1
  /\ List.length (diagnostics (initDropdowns page_valid_and_dangling)) = 1.
Proof.
  split; [reflexivity|]. split; [reflexivity|].
  apply (C9_bulk_init_skips_dangling page_valid_and_dangling); reflexivity.
Defined.

(** * Further properties of the controller *)

(** ** Class state *)

(** X1. On a controller with a trigger element, after at least one call
    of [show()], [hide()] or [toggle()], and whatever classes the target
    had before, the controller is Visible
    exactly when the target carries "block" and not "hidden", and Hidden
    exactly when it carries "hidden" and not "block". *)
Theorem X1_classes_agree_after_any_call :
  forall s tr c cs,
    _triggerEl s = Some tr ->
    (_visible (run (c :: cs) s) = true <-> shown_classes (run (c :: cs) s) = true)
    /\ (_visible (run (c :: cs) s) = false
        <-> hidden_classes (run (c :: cs) s) = true).
Proof.
  intros s tr c cs _.
  pose proof (classes_follow_visibility cs (step s c) (step_classes s c)) as H.
  change (run cs (step s c)) with (run (c :: cs) s) in H.
  unfold shown_classes, hidden_classes in *.
  destruct (_visible (run (c :: cs) s));
    destruct (has_class "block" (targetClasses (run (c :: cs) s)));
    destruct (has_class "hidden" (targetClasses (run (c :: cs) s)));
    cbn in *; try discriminate H; split; split; intros; congruence.
Qed.
Lemma X1_classes_agree_after_any_call_witness :
  _triggerEl (initial page0 1 (Some 2) no_options ["block"; "z-10"]) = Some 2
  /\ (_visible (run [Hide; Toggle]
                    (initial page0 1 (Some 2) no_options ["block"; "z-10"])) = true
      <-> shown_classes (run [Hide; Toggle]
                             (initial page0 1 (Some 2) no_options ["block"; "z-10"]))
          = true).
Proof.
  split; [reflexivity|].
  exact (proj1 (X1_classes_agree_after_any_call
                  (initial page0 1 (Some 2) no_options ["block"; "z-10"]) 2
                  Hide [Toggle] eq_refl)).
Defined.


Lemma step_other_classes s c k :
  k <> "hidden" -> k <> "block" ->
  has_class k (targetClasses (step s c)) = has_class k (targetClasses s).
Proof.
  intros Nh Nb.
  assert (Hs : has_class k (targetClasses (show s)) = has_class k (targetClasses s)).
  { rewrite show_classes, has_class_add_other, has_class_remove_other;
      [reflexivity | exact Nh | exact Nb]. }
  assert (Hh : has_class k (targetClasses (hide s)) = has_class k (targetClasses s)).
  { rewrite hide_classes, has_class_add_other, has_class_remove_other;
      [reflexivity | exact Nb | exact Nh]. }
  destruct c; cbn [step]; [exact Hs | exact Hh |].
  unfold toggle. destruct (_visible s); [exact Hh | exact Hs].
Qed.

(** X2. No sequence of calls adds or removes a class other than "hidden"
    and "block". *)
Theorem X2_other_classes_untouched :
  forall cs s k,
    k <> "hidden" -> k <> "block" ->
    has_class k (targetClasses (run cs s)) = has_class k (targetClasses s).
Proof.
  induction cs as [|c cs IH]; intros s k Nh Nb; [reflexivity|].
  cbn [run fold_left]. change (fold_left step cs (step s c)) with (run cs (step s c)).
  rewrite IH by assumption. apply step_other_classes; assumption.
Qed.

Lemma X2_other_classes_untouched_witness :
  "z-10" <> "hidden" /\ "z-10" <> "block"
  /\ has_class "z-10"
       (targetClasses
          (run [Show; Toggle; Show; Hide]
               (initial page0 1 (Some 2) no_options ["z-10"; "hidden"])))
     = has_class "z-10"
         (targetClasses (initial page0 1 (Some 2) no_options ["z-10"; "hidden"])).
Proof.
  split; [discriminate|]. split; [discriminate|].
  apply (X2_other_classes_untouched [Show; Toggle; Show; Hide]); discriminate.
Defined.

Lemma token_remove_absent c l : has_class c l = false -> token_remove c l = l.
Proof.
  unfold has_class, token_remove. induction l as [|x l IH]; [reflexivity|].
  cbn [existsb filter]. intros H. apply orb_false_iff in H. destruct H as [Hx Hl].
  rewrite String.eqb_sym, Hx. cbn [negb]. rewrite IH by exact Hl. reflexivity.
Qed.

Lemma token_add_present c l : has_class c l = true -> token_add c l = l.
Proof. unfold has_class, token_add. intros H. rewrite H. reflexivity. Qed.

(** X3. Calling [show()] twice leaves the class list of the target as one
    call leaves it, token for token, and so does calling [hide()] twice. *)
Theorem X3_show_and_hide_idempotent_on_classes :
  forall s,
    targetClasses (show (show s)) = targetClasses (show s)
    /\ targetClasses (hide (hide s)) = targetClasses (hide s).
Proof.
  intros s. split.
  - rewrite (show_classes (show s)).
    rewrite (token_remove_absent "hidden") by apply show_not_hidden.
    apply token_add_present, show_has_block.
  - rewrite (hide_classes (hide s)).
    rewrite (token_remove_absent "block") by apply hide_not_block.
    apply token_add_present, hide_has_hidden.
Qed.

(** ** What the calls leave alone *)

Lemma show_target s : _targetEl (show s) = _targetEl s.
Proof. reflexivity. Qed.

Lemma show_trigger s : _triggerEl (show s) = _triggerEl s.
Proof. reflexivity. Qed.

Lemma show_document s : document (show s) = document s.
Proof. reflexivity. Qed.

Lemma show_options s : _options (show s) = _options s.
Proof. reflexivity. Qed.

Lemma hide_options s : _options (hide s) = _options s.
Proof. reflexivity. Qed.

Lemma show_modifiers s :
  popperModifiers (show s) = popperModifiers s ++ [EventListenersModifier true].
Proof. reflexivity. Qed.

Lemma hide_modifiers s :
  popperModifiers (hide s) = popperModifiers s ++ [EventListenersModifier false].
Proof. reflexivity. Qed.

Lemma run_frame cs : forall s,
  document (run cs s) = document s
  /\ _targetEl (run cs s) = _targetEl s
  /\ _triggerEl (run cs s) = _triggerEl s
  /\ _options (run cs s) = _options s.
Proof.
  induction cs as [|c cs IH]; intros s; [repeat split|].
  cbn [run fold_left]. change (fold_left step cs (step s c)) with (run cs (step s c)).
  destruct (IH (step s c)) as (Hd & Ht & Hr & Ho).
  rewrite Hd, Ht, Hr, Ho.
  destruct c; cbn [step]; try (unfold toggle; destruct (_visible s));
    rewrite ?show_document, ?show_target, ?show_trigger, ?show_options,
            ?hide_document, ?hide_target, ?hide_trigger, ?hide_options;
    repeat split.
Qed.

Lemma run_modifiers cs : forall s,
  popperModifiers (run cs s)
  = popperModifiers s ++ map EventListenersModifier (visibility_after (_visible s) cs).
Proof.
  induction cs as [|c cs IH]; intros s.
  - cbn [run fold_left visibility_after map]. rewrite app_nil_r. reflexivity.
  - cbn [run fold_left]. change (fold_left step cs (step s c)) with (run cs (step s c)).
    rewrite IH. destruct c; cbn [step visibility_after map].
    + rewrite show_modifiers, show_visible, <- app_assoc. reflexivity.
    + rewrite hide_modifiers, hide_visible, <- app_assoc. reflexivity.
    + unfold toggle. destruct (_visible s); cbn [negb].
      * rewrite hide_modifiers, hide_visible, <- app_assoc. reflexivity.
      * rewrite show_modifiers, show_visible, <- app_assoc. reflexivity.
Qed.

Lemma visibility_after_length v cs :
  List.length (visibility_after v cs) = List.length cs.
Proof.
  revert v. induction cs as [|c cs IH]; intros v; [reflexivity|].
  destruct c; cbn [visibility_after List.length]; rewrite IH; reflexivity.
Qed.

(** X4. For a controller with a trigger element, the positioning engine
    is created with the offset of the merged options, and no call
    reconfigures the controller: after
    any sequence of calls the document, target, trigger and options of the
    controller are those of the construction, and the modifier list is the
    offset modifier of the construction followed by one [eventListeners]
    entry per call, each carrying the visibility that call left. *)
Theorem X4_calls_never_reconfigure :
  forall doc target tr options classes cs,
    document (run cs (initial doc target (Some tr) options classes)) = doc
    /\ _targetEl (run cs (initial doc target (Some tr) options classes)) = target
    /\ _triggerEl (run cs (initial doc target (Some tr) options classes)) = Some tr
    /\ _options (run cs (initial doc target (Some tr) options classes))
       = merge_options options
    /\ popperModifiers (run cs (initial doc target (Some tr) options classes))
       = OffsetModifier (offsetSkidding (merge_options options))
                        (offsetDistance (merge_options options))
         :: map EventListenersModifier (visibility_after false cs)
    /\ List.length (popperModifiers (run cs (initial doc target (Some tr) options classes)))
       = S (List.length cs).
Proof.
  intros doc target tr options classes cs.
  destruct (run_frame cs (initial doc target (Some tr) options classes))
    as (Hd & Ht & Hr & Ho).
  rewrite Hd, Ht, Hr, Ho, run_modifiers.
  repeat split.
  change (popperModifiers (initial doc target (Some tr) options classes))
    with [OffsetModifier (offsetSkidding (merge_options options))
                         (offsetDistance (merge_options options))].
  change (_visible (initial doc target (Some tr) options classes)) with false.
  cbn [app List.length]. rewrite length_map, visibility_after_length. reflexivity.
Qed.

(** ** The listeners on the document *)

Lemma allocated_show s : allocated s = true -> allocated (show s) = true.
Proof.
  unfold allocated. rewrite show_body, show_nextRef. intros A.
  assert (W : forallb (fun r => Nat.ltb r (S (nextRef s))) (bodyClickCapture s) = true).
  { apply forallb_forall. intros x Hx.
    apply (proj1 (forallb_forall _ _) A), Nat.ltb_lt in Hx.
    apply Nat.ltb_lt. lia. }
  unfold listener_add. destruct (existsb (Nat.eqb (nextRef s)) (bodyClickCapture s));
    [exact W|].
  rewrite forallb_app, W. cbn [forallb andb].
  rewrite andb_true_r. apply Nat.ltb_lt. lia.
Qed.

Lemma allocated_hide s : allocated s = true -> allocated (hide s) = true.
Proof.
  unfold allocated. rewrite hide_body, hide_nextRef. intros A.
  destruct (_clickOutsideEventListener s) as [r|]; [|exact A].
  cbn [listener_remove]. apply forallb_forall. intros x Hx.
  apply filter_In in Hx. destruct Hx as [Hx _].
  exact (proj1 (forallb_forall _ _) A x Hx).
Qed.

Lemma nodup_show s :
  allocated s = true -> NoDup (bodyClickCapture s) -> NoDup (bodyClickCapture (show s)).
Proof.
  intros A N. rewrite show_body. unfold listener_add.
  rewrite (fresh_not_registered _ _ A).
  apply NoDup_app; [exact N | constructor; [intros [] | constructor] |].
  intros x Hx [E|[]]. subst x.
  apply (proj1 (forallb_forall _ _) A), Nat.ltb_lt in Hx. lia.
Qed.

Lemma nodup_hide s :
  NoDup (bodyClickCapture s) -> NoDup (bodyClickCapture (hide s)).
Proof.
  intros N. rewrite hide_body.
  destruct (_clickOutsideEventListener s); [|exact N].
  cbn [listener_remove]. apply NoDup_filter, N.
Qed.

Lemma run_allocated_nodup cs : forall s,
  allocated s = true -> NoDup (bodyClickCapture s) ->
  allocated (run cs s) = true /\ NoDup (bodyClickCapture (run cs s)).
Proof.
  induction cs as [|c cs IH]; intros s A N; [split; assumption|].
  cbn [run fold_left]. change (fold_left step cs (step s c)) with (run cs (step s c)).
  apply IH; destruct c; cbn [step];
    try (unfold toggle; destruct (_visible s));
    auto using allocated_show, allocated_hide, nodup_show, nodup_hide.
Qed.

(** X5. On a controller with a trigger element, reached from its
    construction by any calls, no
    function object is registered twice, and every [show()] registers one
    listener more than were registered before, a function object that was
    not registered yet; this is so whether the controller is Hidden or
    already Visible. *)
Theorem X5_each_show_registers_a_new_listener :
  forall doc target tr options classes cs,
    NoDup (bodyClickCapture (run cs (initial doc target (Some tr) options classes)))
    /\ ~ In (nextRef (run cs (initial doc target (Some tr) options classes)))
            (bodyClickCapture (run cs (initial doc target (Some tr) options classes)))
    /\ bodyClickCapture (show (run cs (initial doc target (Some tr) options classes)))
       = bodyClickCapture (run cs (initial doc target (Some tr) options classes))
         ++ [nextRef (run cs (initial doc target (Some tr) options classes))]
    /\ List.length
         (bodyClickCapture (show (run cs (initial doc target (Some tr) options classes))))
       = S (List.length
              (bodyClickCapture (run cs (initial doc target (Some tr) options classes)))).
Proof.
  intros doc target tr options classes cs.
  destruct (run_allocated_nodup cs (initial doc target (Some tr) options classes))
    as [A N]; [reflexivity | constructor |].
  assert (F : ~ In (nextRef (run cs (initial doc target (Some tr) options classes)))
                (bodyClickCapture (run cs (initial doc target (Some tr) options classes)))).
  { intros Hx. apply (proj1 (forallb_forall _ _) A), Nat.ltb_lt in Hx. lia. }
  assert (E : bodyClickCapture (show (run cs (initial doc target (Some tr) options classes)))
              = bodyClickCapture (run cs (initial doc target (Some tr) options classes))
                ++ [nextRef (run cs (initial doc target (Some tr) options classes))]).
  { rewrite show_body. unfold listener_add.
    rewrite (fresh_not_registered _ _ A). reflexivity. }
  split; [exact N|]. split; [exact F|]. split; [exact E|].
  rewrite E, List.length_app. cbn [List.length]. lia.
Qed.

Lemma toggles_never_show_while_visible n : forall v,
  no_show_while_visible v (repeat Toggle n) = true.
Proof.
  induction n as [|n IH]; intros v; [reflexivity|].
  cbn [repeat no_show_while_visible]. apply IH.
Qed.

(** X6. As long as [show()] is never called on a Visible controller, the
    listener registration follows the visibility: after such a sequence of
    calls on a new controller, exactly one listener is registered when the
    controller is Visible, the one stored in the controller, and none when
    it is Hidden.  Sequences of [toggle()] alone are of that kind. *)
Theorem X6_listener_follows_visibility_without_repeated_show :
  forall doc target trigger options classes,
    (forall cs,
        no_show_while_visible false cs = true ->
        paired (run cs (initial doc target trigger options classes)) = true)
    /\ (forall n,
           paired (run (repeat Toggle n) (initial doc target trigger options classes))
           = true).
Proof.
  intros doc target trigger options classes. split.
  - intros cs G. apply paired_run; [exact G | reflexivity].
  - intros n. apply paired_run; [apply toggles_never_show_while_visible | reflexivity].
Qed.

Lemma X6_listener_follows_visibility_without_repeated_show_witness :
  no_show_while_visible false [Show; Hide; Hide; Toggle; Toggle; Show] = true
  /\ paired (run [Show; Hide; Hide; Toggle; Toggle; Show] init0) = true.
Proof.
  split; [reflexivity|].
  apply (X6_listener_follows_visibility_without_repeated_show
           page0 1 (Some 2) no_options ["hidden"]).
  reflexivity.
Defined.

(** X7. On a controller with a trigger element, the function object that
    [hide()] passes to [removeEventListener] is always the one that the
    latest [show()] passed to
    [addEventListener]; before the first [show()] it is [undefined]. *)
Theorem X7_hide_removes_the_latest_registration :
  forall doc target tr options classes cs,
    log (hide (run cs (initial doc target (Some tr) options classes)))
    = log (run cs (initial doc target (Some tr) options classes))
      ++ [ClassRemove "block"; ClassAdd "hidden";
          PopperSetOptions
            (popperModifiers (run cs (initial doc target (Some tr) options classes))
             ++ [EventListenersModifier false]);
          BodyRemoveListener
            (last_added (log (run cs (initial doc target (Some tr) options classes))));
          CallOnHide].
Proof.
  intros doc target tr options classes cs.
  rewrite hide_log.
  rewrite (field_is_last_added cs (initial doc target (Some tr) options classes))
    by reflexivity.
  reflexivity.
Qed.

(** ** Clicks on the page *)







Lemma repeat_snoc {A} (x : A) n : repeat x (S n) = repeat x n ++ [x].
Proof.
  induction n as [|n IH]; [reflexivity|].
  cbn [repeat app] in *. rewrite <- IH. reflexivity.
Qed.

Lemma seq_all_below n : forallb (fun r => Nat.ltb r n) (seq 0 n) = true.
Proof.
  apply forallb_forall. intros x Hx. apply in_seq in Hx.
  apply Nat.ltb_lt. lia.
Qed.

Lemma shows_register n : forall s,
  bodyClickCapture s = [] -> nextRef s = 0 ->
  bodyClickCapture (run (repeat Show n) s) = seq 0 n
  /\ nextRef (run (repeat Show n) s) = n
  /\ (0 < n -> _clickOutsideEventListener (run (repeat Show n) s) = Some (n - 1)).
Proof.
  induction n as [|n IH]; intros s B R.
  - cbn [repeat run fold_left seq]. repeat split; [exact B | exact R | lia].
  - rewrite repeat_snoc, run_app.
    destruct (IH s B R) as (Hb & Hn & _).
    cbn [run fold_left step].
    change (fold_left step (repeat Show n) s) with (run (repeat Show n) s).
    rewrite show_body, show_nextRef, show_field, Hb, Hn.
    unfold listener_add. rewrite (fresh_not_registered n (seq 0 n) (seq_all_below n)).
    rewrite seq_S. cbn [plus]. repeat split.
    intros _. f_equal. lia.
Qed.

(** X9. [n] calls of [show()] in a row on a new controller with a trigger
    element leave [n]
    outside-click listeners registered, and a [hide()] after them removes
    one, the last: [n - 1] stay registered on a Hidden controller. *)
Theorem X9_repeated_show_leaks_one_listener_per_call :
  forall doc target tr options classes n,
    List.length
      (bodyClickCapture
         (run (repeat Show n) (initial doc target (Some tr) options classes))) = n
    /\ bodyClickCapture
         (run (repeat Show n ++ [Hide]) (initial doc target (Some tr) options classes))
       = seq 0 (n - 1)
    /\ _visible
         (run (repeat Show n ++ [Hide]) (initial doc target (Some tr) options classes))
       = false.
Proof.
  intros doc target tr options classes n.
  destruct (shows_register n (initial doc target (Some tr) options classes))
    as (Hb & Hn & Hf); [reflexivity | reflexivity |].
  split; [rewrite Hb; apply length_seq|].
  rewrite run_app. cbn [run fold_left step].
  split; [|apply hide_visible].
  rewrite hide_body, Hb.
  destruct n as [|n].
  - destruct (_clickOutsideEventListener
                (run (repeat Show 0) (initial doc target (Some tr) options classes)));
      reflexivity.
  - rewrite Hf by lia. cbn [listener_remove].
    replace (S n - 1) with n by lia.
    rewrite seq_S, filter_app, (remove_fresh n (seq 0 n) (seq_all_below n)).
    cbn [plus filter]. rewrite Nat.eqb_refl. cbn [negb]. apply app_nil_r.
Qed.

(** ** Wiring of the trigger and the target *)

(** X10. What [_init] attaches, by cases: nothing when the controller has
    no trigger element, whatever its trigger type; the click listener of
    the trigger in Click mode; the six listeners of Hover mode, three on
    the trigger and three on the target, with one line printed on the
    console; and a controller with a trigger has no listener exactly when
    its trigger type is neither "click" nor "hover". *)
Theorem X10_wiring_by_trigger_type :
  forall doc target options classes,
    (wiring (Dropdown_new doc target None options classes) = []
     /\ printed (Dropdown_new doc target None options classes) = [])
    /\ (forall tr,
           triggerType (merge_options options) = "click" ->
           wiring (Dropdown_new doc target (Some tr) options classes) = click_wiring
           /\ printed (Dropdown_new doc target (Some tr) options classes) = [])
    /\ (forall tr,
           triggerType (merge_options options) = "hover" ->
           wiring (Dropdown_new doc target (Some tr) options classes)
           = hover_wiring_list
           /\ List.length (printed (Dropdown_new doc target (Some tr) options classes))
              = 1)
    /\ (forall tr,
           wiring (Dropdown_new doc target (Some tr) options classes) = []
           <-> (triggerType (merge_options options) <> "click"
                /\ triggerType (merge_options options) <> "hover")).
Proof.
  intros doc target options classes.
  split; [split; reflexivity|].
  unfold Dropdown_new, _init, _getTriggerEvents. cbn [wiring printed fst snd].
  split; [|split].
  - intros tr E. rewrite E. split; reflexivity.
  - intros tr E. rewrite E. split; reflexivity.
  - intros tr.
    destruct (String.eqb_spec (triggerType (merge_options options)) "hover") as [Eh|Nh].
    + rewrite Eh. cbn. split; [discriminate | intros [_ N]; contradiction].
    + destruct (String.eqb_spec (triggerType (merge_options options)) "click")
        as [Ec|Nc].
      * cbn. split; [discriminate | intros [N _]; contradiction].
      * cbn. split; [intros _; split; assumption | reflexivity].
Qed.

Lemma X10_wiring_by_trigger_type_witness :
  triggerType (merge_options
                 {| p_placement := None; p_triggerType := Some "hover";
                    p_offsetSkidding := None; p_offsetDistance := None |}) = "hover"
  /\ wiring (Dropdown_new page0 1 (Some 2)
               {| p_placement := None; p_triggerType := Some "hover";
                  p_offsetSkidding := None; p_offsetDistance := None |}
               ["hidden"]) = hover_wiring_list.
Proof.
  split; [reflexivity|].
  apply (X10_wiring_by_trigger_type page0 1
           {| p_placement := None; p_triggerType := Some "hover";
              p_offsetSkidding := None; p_offsetDistance := None |}
           ["hidden"]).
  reflexivity.
Defined.

Lemma fire_hover_target_mouseenter s :
  fire hover_wiring_list OnTarget "mouseenter" s = (show s, []).
Proof. reflexivity. Qed.

Lemma fire_hover_target_click s :
  fire hover_wiring_list OnTarget "click" s = (show s, []).
Proof. reflexivity. Qed.

Lemma fire_hover_trigger_mouseenter s :
  fire hover_wiring_list OnTrigger "mouseenter" s = (show s, []).
Proof. reflexivity. Qed.

Lemma fire_hover_trigger_click s :
  fire hover_wiring_list OnTrigger "click" s = (toggle s, []).
Proof. reflexivity. Qed.

(** X11. In Hover mode a mouseenter on the trigger, and a mouseenter or a
    click on the target, call [show()] whatever the visibility, and a
    click on the trigger toggles; so on a Visible controller each pointer
    entry and each click inside the open target registers one more
    outside-click listener. *)
Theorem X11_hover_events_show_again :
  forall doc target tr options classes cs,
    triggerType (merge_options options) = "hover" ->
    fire (wiring (Dropdown_new doc target (Some tr) options classes))
         OnTrigger "mouseenter" (run cs (initial doc target (Some tr) options classes))
    = (show (run cs (initial doc target (Some tr) options classes)), [])
    /\ fire (wiring (Dropdown_new doc target (Some tr) options classes))
            OnTarget "mouseenter" (run cs (initial doc target (Some tr) options classes))
       = (show (run cs (initial doc target (Some tr) options classes)), [])
    /\ fire (wiring (Dropdown_new doc target (Some tr) options classes))
            OnTarget "click" (run cs (initial doc target (Some tr) options classes))
       = (show (run cs (initial doc target (Some tr) options classes)), [])
    /\ fire (wiring (Dropdown_new doc target (Some tr) options classes))
            OnTrigger "click" (run cs (initial doc target (Some tr) options classes))
       = (toggle (run cs (initial doc target (Some tr) options classes)), [])
    /\ List.length
         (bodyClickCapture
            (fst (fire (wiring (Dropdown_new doc target (Some tr) options classes))
                       OnTarget "click"
                       (run cs (initial doc target (Some tr) options classes)))))
       = S (List.length
              (bodyClickCapture (run cs (initial doc target (Some tr) options classes)))).
Proof.
  intros doc target tr options classes cs E.
  assert (W : wiring (Dropdown_new doc target (Some tr) options classes)
              = hover_wiring_list).
  { unfold Dropdown_new, _init, _getTriggerEvents. cbn [wiring fst].
    rewrite E. reflexivity. }
  rewrite W, fire_hover_trigger_mouseenter, fire_hover_target_mouseenter,
    fire_hover_target_click, fire_hover_trigger_click.
  repeat split. cbn [fst].
  destruct (run_allocated_nodup cs (initial doc target (Some tr) options classes))
    as [A _]; [reflexivity | constructor |].
  rewrite show_body. unfold listener_add.
  rewrite (fresh_not_registered _ _ A), List.length_app. cbn [List.length]. lia.
Qed.

Lemma X11_hover_events_show_again_witness :
  triggerType (merge_options
                 {| p_placement := None; p_triggerType := Some "hover";
                    p_offsetSkidding := None; p_offsetDistance := None |}) = "hover"
  /\ List.length
       (bodyClickCapture
          (fst (fire (wiring (Dropdown_new page0 1 (Some 2)
                                {| p_placement := None; p_triggerType := Some "hover";
                                   p_offsetSkidding := None; p_offsetDistance := None |}
                                ["hidden"]))
                     OnTarget "click"
                     (run [Show]
                          (initial page0 1 (Some 2)
                             {| p_placement := None; p_triggerType := Some "hover";
                                p_offsetSkidding := None; p_offsetDistance := None |}
                             ["hidden"])))))
     = 2.
Proof.
  split; [reflexivity|].
  apply (X11_hover_events_show_again page0 1 2
           {| p_placement := None; p_triggerType := Some "hover";
              p_offsetSkidding := None; p_offsetDistance := None |}
           ["hidden"] [Show]).
  reflexivity.
Defined.

(** X12. In Hover mode a mouseleave on the trigger, or on the target,
    changes nothing at once and starts one check, 100 ms later, of the
    other element.  When the check runs it hides the controller unless
    that other element is under the pointer: the check started by leaving
    the trigger hides even when the pointer is back over the trigger. *)
Theorem X12_hover_leave_checks_the_other_element :
  forall doc target tr options classes s hovered,
    triggerType (merge_options options) = "hover" ->
    fire (wiring (Dropdown_new doc target (Some tr) options classes))
         OnTrigger "mouseleave" s
    = (s, [{| delay_ms := 100; unless_hovered := OnTarget |}])
    /\ fire (wiring (Dropdown_new doc target (Some tr) options classes))
            OnTarget "mouseleave" s
       = (s, [{| delay_ms := 100; unless_hovered := OnTrigger |}])
    /\ map (fun t => timer_fires hovered t s)
           (snd (fire (wiring (Dropdown_new doc target (Some tr) options classes))
                      OnTrigger "mouseleave" s))
       = [if hovered OnTarget then s else hide s]
    /\ map (fun t => timer_fires hovered t s)
           (snd (fire (wiring (Dropdown_new doc target (Some tr) options classes))
                      OnTarget "mouseleave" s))
       = [if hovered OnTrigger then s else hide s].
Proof.
  intros doc target tr options classes s hovered E.
  assert (W : wiring (Dropdown_new doc target (Some tr) options classes)
              = hover_wiring_list).
  { unfold Dropdown_new, _init, _getTriggerEvents. cbn [wiring fst].
    rewrite E. reflexivity. }
  rewrite W.
  assert (F1 : fire hover_wiring_list OnTrigger "mouseleave" s
               = (s, [{| delay_ms := 100; unless_hovered := OnTarget |}]))
    by reflexivity.
  assert (F2 : fire hover_wiring_list OnTarget "mouseleave" s
               = (s, [{| delay_ms := 100; unless_hovered := OnTrigger |}]))
    by reflexivity.
  rewrite F1, F2. cbn [snd map]. unfold timer_fires. cbn [unless_hovered].
  destruct (hovered OnTarget), (hovered OnTrigger); repeat split.
Qed.

Lemma X12_hover_leave_checks_the_other_element_witness :
  triggerType (merge_options
                 {| p_placement := None; p_triggerType := Some "hover";
                    p_offsetSkidding := None; p_offsetDistance := None |}) = "hover"
  /\ map (fun t => timer_fires (fun e => same_element e OnTrigger) t (show init0))
         (snd (fire (wiring (Dropdown_new page0 1 (Some 2)
                               {| p_placement := None; p_triggerType := Some "hover";
                                  p_offsetSkidding := None; p_offsetDistance := None |}
                               ["hidden"]))
                    OnTrigger "mouseleave" (show init0)))
     = [hide (show init0)].
Proof.
  split; [reflexivity|].
  apply (X12_hover_leave_checks_the_other_element page0 1 2
           {| p_placement := None; p_triggerType := Some "hover";
              p_offsetSkidding := None; p_offsetDistance := None |}
           ["hidden"] (show init0) (fun e => same_element e OnTrigger)).
  reflexivity.
Defined.

(** ** What the bulk initializer reads and builds *)

Lemma digits_of_numeral d : forall acc,
  digits_prefix 10 (NilEmpty.string_of_uint d) (Some (Z.of_nat acc))
  = Some (Z.of_nat (Nat.of_uint_acc d acc)).
Proof.
  induction d as [|d IH|d IH|d IH|d IH|d IH|d IH|d IH|d IH|d IH|d IH];
    intros acc; [reflexivity|..];
    cbn [NilEmpty.string_of_uint Nat.of_uint_acc];
    rewrite <- IH; cbn [digits_prefix];
    match goal with
    | |- context [digit_value 10 ?c] =>
        let v := eval vm_compute in (digit_value 10 c) in
        change (digit_value 10 c) with v
    end;
    cbv iota beta; cbn [or_default]; do 2 f_equal;
    rewrite Nat.tail_mul_spec; lia.
Qed.

Lemma digits_from_nothing d :
  d <> Decimal.Nil ->
  digits_prefix 10 (NilEmpty.string_of_uint d) None
  = digits_prefix 10 (NilEmpty.string_of_uint d) (Some 0%Z).
Proof. destruct d; [contradiction | reflexivity..]. Qed.

Lemma parseInt_numeral d :
  d <> Decimal.Nil ->
  parseInt (NilEmpty.string_of_uint d)
  = match digits_prefix 10 (NilEmpty.string_of_uint d) None with
    | Some v => Int (1 * v)
    | None => NaN
    end.
Proof.
  destruct d as [|d|d|d|d|d|d|d|d|d|d]; [contradiction | | reflexivity..].
  intros _. destruct d; reflexivity.
Qed.

Lemma to_uint_not_nil n : Nat.to_uint n <> Decimal.Nil.
Proof.
  intros E. pose proof (Unsigned.of_to n) as H. rewrite E in H.
  cbn in H. subst n. discriminate E.
Qed.

Lemma parseInt_decimal n : parseInt (decimal n) = Int (Z.of_nat n).
Proof.
  unfold decimal.
  rewrite parseInt_numeral, digits_from_nothing by apply to_uint_not_nil.
  change (Some 0%Z) with (Some (Z.of_nat 0)).
  rewrite (digits_of_numeral (Nat.to_uint n) 0).
  change (Nat.of_uint_acc (Nat.to_uint n) 0) with (Nat.of_uint (Nat.to_uint n)).
  rewrite Unsigned.of_to, Z.mul_1_l. reflexivity.
Qed.

Lemma decimal_not_empty n : String.eqb (decimal n) "" = false.
Proof.
  unfold decimal. pose proof (to_uint_not_nil n) as H.
  destruct (Nat.to_uint n); [contradiction | reflexivity..].
Qed.

(** X13. An offset attribute that holds the decimal numeral of a natural
    number not above 2^53 (up to there every integer is a JavaScript
    number) gives that number as the offset of the controller, for the
    skidding and for the distance. *)
Theorem X13_decimal_offsets_are_read_back :
  forall doc target triggerEl classes n,
    (Z.of_nat n <= 9007199254740992)%Z ->
    (getAttribute triggerEl "data-dropdown-offset-skidding" = Some (decimal n) ->
     offsetSkidding (_options (controller
        (Dropdown_new doc target (Some (handle triggerEl))
                      (options_of_trigger triggerEl) classes)))
     = Int (Z.of_nat n))
    /\ (getAttribute triggerEl "data-dropdown-offset-distance" = Some (decimal n) ->
        offsetDistance (_options (controller
          (Dropdown_new doc target (Some (handle triggerEl))
                        (options_of_trigger triggerEl) classes)))
        = Int (Z.of_nat n)).
Proof.
  intros doc target triggerEl classes n _.
  unfold Dropdown_new, options_of_trigger, merge_options, if_truthy.
  cbn [controller _options offsetSkidding offsetDistance
       p_offsetSkidding p_offsetDistance or_default].
  split; intros E; rewrite E, decimal_not_empty; apply parseInt_decimal.
Qed.

Lemma X13_decimal_offsets_are_read_back_witness :
  (Z.of_nat 25 <= 9007199254740992)%Z
  /\ getAttribute (Elem 2 [("data-dropdown-toggle", "menu");
                           ("data-dropdown-offset-distance", "25")] [])
                  "data-dropdown-offset-distance" = Some (decimal 25)
  /\ offsetDistance (_options (controller
       (Dropdown_new page0 1 (Some 2)
          (options_of_trigger
             (Elem 2 [("data-dropdown-toggle", "menu");
                      ("data-dropdown-offset-distance", "25")] []))
          ["hidden"]))) = Int 25.
Proof.
  split; [lia|]. split; [reflexivity|].
  apply (X13_decimal_offsets_are_read_back page0 1
           (Elem 2 [("data-dropdown-toggle", "menu");
                    ("data-dropdown-offset-distance", "25")] [])
           ["hidden"] 25); [lia | reflexivity].
Defined.

Lemma init_fold_constructed doc ts : forall acc,
  constructed (fold_left (init_one doc) ts acc)
  = constructed acc ++ flat_map (controller_for doc) ts.
Proof.
  induction ts as [|e ts IH]; intros acc.
  - cbn [fold_left flat_map]. rewrite app_nil_r. reflexivity.
  - cbn [fold_left flat_map]. rewrite IH. unfold controller_for at 2.
    destruct (target_of doc e) as [t|] eqn:E.
    + rewrite (init_one_resolved doc acc e t E). cbn [constructed].
      rewrite <- app_assoc. reflexivity.
    + rewrite (init_one_dangling doc acc e E). reflexivity.
Qed.

Lemma getElementById_found doc id t :
  getElementById doc id = Some t ->
  In t (elements doc) /\ getAttribute t "id" = Some id /\ id <> "".
Proof.
  unfold getElementById. destruct (String.eqb_spec id "") as [E|N]; [discriminate|].
  intros H. apply find_some in H. destruct H as [Hin Hid].
  split; [exact Hin|]. split; [|exact N].
  destruct (getAttribute t "id") as [v|]; [|discriminate].
  apply String.eqb_eq in Hid. subst v. reflexivity.
Qed.

(** X14. Every controller the bulk initializer constructs is Hidden with
    no outside-click listener registered, its trigger is an element of the
    document that carries the marker attribute with a non-empty value, and
    its target is an element of the document whose id is that value. *)
Theorem X14_constructed_controllers_are_well_paired :
  forall doc c,
    In c (constructed (initDropdowns doc)) ->
    exists triggerEl dropdownEl id,
      In triggerEl (elements doc)
      /\ In dropdownEl (elements doc)
      /\ getAttribute triggerEl "data-dropdown-toggle" = Some id
      /\ id <> ""
      /\ getAttribute dropdownEl "id" = Some id
      /\ _triggerEl (controller c) = Some (handle triggerEl)
      /\ _targetEl (controller c) = handle dropdownEl
      /\ targetClasses (controller c) = classList dropdownEl
      /\ _visible (controller c) = false
      /\ bodyClickCapture (controller c) = [].
Proof.
  intros doc c H. unfold initDropdowns in H.
  rewrite init_fold_constructed in H. cbn [constructed app] in H.
  apply in_flat_map in H. destruct H as [e [He Hc]].
  apply filter_In in He. destruct He as [He Hm].
  unfold controller_for, target_of in Hc.
  destruct (getAttribute e "data-dropdown-toggle") as [id|] eqn:Ea; [|discriminate].
  cbn [or_default] in Hc.
  destruct (getElementById doc id) as [t|] eqn:Et; [|contradiction].
  destruct Hc as [Hc|[]]. subst c.
  destruct (getElementById_found doc id t Et) as (Hin & Hid & Hne).
  exists e, t, id. repeat split; assumption.
Qed.

Lemma X14_constructed_controllers_are_well_paired_witness :
  In (Dropdown_new page_valid_and_dangling 1 (Some 2)
        (options_of_trigger (Elem 2 [("data-dropdown-toggle", "menu")] []))
        ["hidden"])
     (constructed (initDropdowns page_valid_and_dangling))
  /\ exists triggerEl dropdownEl id,
      In triggerEl (elements page_valid_and_dangling)
      /\ In dropdownEl (elements page_valid_and_dangling)
      /\ getAttribute triggerEl "data-dropdown-toggle" = Some id
      /\ id <> ""
      /\ getAttribute dropdownEl "id" = Some id
      /\ _triggerEl (controller
           (Dropdown_new page_valid_and_dangling 1 (Some 2)
              (options_of_trigger (Elem 2 [("data-dropdown-toggle", "menu")] []))
              ["hidden"])) = Some (handle triggerEl)
      /\ _targetEl (controller
           (Dropdown_new page_valid_and_dangling 1 (Some 2)
              (options_of_trigger (Elem 2 [("data-dropdown-toggle", "menu")] []))
              ["hidden"])) = handle dropdownEl
      /\ targetClasses (controller
           (Dropdown_new page_valid_and_dangling 1 (Some 2)
              (options_of_trigger (Elem 2 [("data-dropdown-toggle", "menu")] []))
              ["hidden"])) = classList dropdownEl
      /\ _visible (controller
           (Dropdown_new page_valid_and_dangling 1 (Some 2)
              (options_of_trigger (Elem 2 [("data-dropdown-toggle", "menu")] []))
              ["hidden"])) = false
      /\ bodyClickCapture (controller
           (Dropdown_new page_valid_and_dangling 1 (Some 2)
              (options_of_trigger (Elem 2 [("data-dropdown-toggle", "menu")] []))
              ["hidden"])) = [].
Proof.
  assert (H : In (Dropdown_new page_valid_and_dangling 1 (Some 2)
                    (options_of_trigger (Elem 2 [("data-dropdown-toggle", "menu")] []))
                    ["hidden"])
                 (constructed (initDropdowns page_valid_and_dangling))).
  { left. reflexivity. }
  split; [exact H|].
  exact (X14_constructed_controllers_are_well_paired page_valid_and_dangling _ H).
Defined.

(** ** The positioning engine and the callbacks *)

Lemma step_popper_flag s c :
  eventListenersEnabled (step s c) = _visible (step s c).
Proof.
  destruct c; cbn [step]; try (unfold toggle; destruct (_visible s));
    rewrite ?show_enables_popper, ?hide_disables_popper, ?show_visible, ?hide_visible;
    reflexivity.
Qed.

Lemma run_popper_flag cs : forall s c,
  eventListenersEnabled (run (c :: cs) s) = _visible (run (c :: cs) s).
Proof.
  induction cs as [|c' cs IH]; intros s c.
  - apply step_popper_flag.
  - change (run (c :: c' :: cs) s) with (run (c' :: cs) (step s c)). apply IH.
Qed.

(** X15. For a controller with a trigger element: after at least one call
    the event listeners of the positioning engine are enabled exactly
    while the controller is Visible; a newly
    constructed controller is Hidden with those listeners enabled, as no
    options update has disabled them yet. *)
Theorem X15_engine_listeners_follow_visibility_after_first_call :
  forall doc target tr options classes,
    (forall c cs,
        eventListenersEnabled
          (run (c :: cs) (initial doc target (Some tr) options classes))
        = _visible (run (c :: cs) (initial doc target (Some tr) options classes)))
    /\ _visible (initial doc target (Some tr) options classes) = false
    /\ eventListenersEnabled (initial doc target (Some tr) options classes) = true.
Proof.
  intros doc target tr options classes.
  split; [|split; reflexivity].
  intros c cs. apply run_popper_flag.
Qed.

Lemma show_counts s :
  List.length (filter is_onShow (log (show s)))
  = S (List.length (filter is_onShow (log s)))
  /\ List.length (filter is_onHide (log (show s)))
     = List.length (filter is_onHide (log s)).
Proof.
  rewrite show_log, !filter_app, !List.length_app. cbn. split; lia.
Qed.

Lemma hide_counts s :
  List.length (filter is_onShow (log (hide s)))
  = List.length (filter is_onShow (log s))
  /\ List.length (filter is_onHide (log (hide s)))
     = S (List.length (filter is_onHide (log s))).
Proof.
  rewrite hide_log, !filter_app, !List.length_app. cbn. split; lia.
Qed.

Lemma run_counts cs : forall s,
  List.length (filter is_onShow (log (run cs s)))
  = List.length (filter is_onShow (log s))
    + count_occ bool_dec (visibility_after (_visible s) cs) true
  /\ List.length (filter is_onHide (log (run cs s)))
     = List.length (filter is_onHide (log s))
       + count_occ bool_dec (visibility_after (_visible s) cs) false.
Proof.
  induction cs as [|c cs IH]; intros s.
  - cbn [run fold_left visibility_after count_occ]. split; lia.
  - cbn [run fold_left]. change (fold_left step cs (step s c)) with (run cs (step s c)).
    destruct (IH (step s c)) as [IHs IHh]. rewrite IHs, IHh.
    destruct (show_counts s) as [Ss Sh]. destruct (hide_counts s) as [Hs Hh].
    destruct c; cbn [step visibility_after].
    + rewrite show_visible, Ss, Sh. cbn. split; lia.
    + rewrite hide_visible, Hs, Hh. cbn. split; lia.
    + unfold toggle. destruct (_visible s); cbn [negb].
      * rewrite hide_visible, Hs, Hh. cbn. split; lia.
      * rewrite show_visible, Ss, Sh. cbn. split; lia.
Qed.

Lemma toggle_counts n : forall v,
  count_occ bool_dec (visibility_after v (repeat Toggle n)) true
  = (if v then n / 2 else (n + 1) / 2)
  /\ count_occ bool_dec (visibility_after v (repeat Toggle n)) false
     = (if v then (n + 1) / 2 else n / 2).
Proof.
  induction n as [|n IH]; intros v.
  - destruct v; split; reflexivity.
  - cbn [repeat visibility_after]. destruct (IH (negb v)) as [It If].
    assert (E1 : (S n + 1) / 2 = S (n / 2)).
    { replace (S n + 1) with (n + 1 * 2) by lia. rewrite Nat.div_add by lia. lia. }
    assert (E2 : S n / 2 = (n + 1) / 2) by (f_equal; lia).
    destruct v; cbn [negb count_occ] in *.
    + destruct (bool_dec false true) as [F|_]; [discriminate F|].
      destruct (bool_dec false false) as [_|F]; [|contradiction].
      rewrite It, If. split; lia.
    + destruct (bool_dec true true) as [_|F]; [|contradiction].
      destruct (bool_dec true false) as [F|_]; [discriminate F|].
      rewrite It, If. split; lia.
Qed.

(** X16. On a controller with a trigger element, every call of the public
    API fires exactly one callback, whether
    or not it changes the visibility: after any sequence of calls on a new
    controller, [onShow] has been called once per [show()] that ran and
    [onHide] once per [hide()] that ran, and the two counts add up to the
    number of calls.  After [n] calls of [toggle()], [onShow] has been
    called [(n + 1) / 2] times and [onHide] [n / 2] times. *)
Theorem X16_one_callback_per_call :
  forall doc target tr options classes,
    (forall cs,
        List.length (filter is_onShow
                       (log (run cs (initial doc target (Some tr) options classes))))
        = count_occ bool_dec (visibility_after false cs) true
        /\ List.length (filter is_onHide
                          (log (run cs (initial doc target (Some tr) options classes))))
           = count_occ bool_dec (visibility_after false cs) false
        /\ List.length (filter is_onShow
                          (log (run cs (initial doc target (Some tr) options classes))))
           + List.length (filter is_onHide
                            (log (run cs (initial doc target (Some tr) options classes))))
           = List.length cs)
    /\ (forall n,
           List.length (filter is_onShow
                          (log (run (repeat Toggle n)
                                    (initial doc target (Some tr) options classes))))
           = (n + 1) / 2
           /\ List.length (filter is_onHide
                             (log (run (repeat Toggle n)
                                       (initial doc target (Some tr) options classes))))
              = n / 2).
Proof.
  intros doc target tr options classes.
  assert (G : forall cs,
      List.length (filter is_onShow
                     (log (run cs (initial doc target (Some tr) options classes))))
      = count_occ bool_dec (visibility_after false cs) true
      /\ List.length (filter is_onHide
                        (log (run cs (initial doc target (Some tr) options classes))))
         = count_occ bool_dec (visibility_after false cs) false).
  { intros cs.
    destruct (run_counts cs (initial doc target (Some tr) options classes)) as [Hs Hh].
    exact (conj Hs Hh). }
  split.
  - intros cs. destruct (G cs) as [Hs Hh]. split; [exact Hs|]. split; [exact Hh|].
    rewrite Hs, Hh, <- (visibility_after_length false cs).
    generalize (visibility_after false cs). intros l.
    induction l as [|b l IH]; [reflexivity|].
    cbn [count_occ List.length].
    destruct b; destruct (bool_dec _ _) as [E|E]; destruct (bool_dec _ _) as [E'|E'];
      try discriminate; try contradiction; lia.
  - intros n. destruct (G (repeat Toggle n)) as [Hs Hh].
    destruct (toggle_counts n false) as [Ct Cf].
    rewrite Hs, Hh, Ct, Cf. split; reflexivity.
Qed.
